(** * Shop backend: the product catalogue controller

    A shallow embedding of the product handlers of
    [src/controllers/userController.js] (the second module concatenated in
    that file: [getProducts] ... [getAllYears]) and of the store, file-system
    and response operations they call, followed by the properties the
    specification states about them.

    Conventions of the embedding.
    - Fractional JavaScript numbers (prices, ratings) are IEEE 754 binary64
      values: Rocq's primitive [float].
    - Integral JavaScript numbers (page numbers, page sizes, counts, lengths,
      stock counts, years) are [Z].
    - Strings are [string], a sequence of bytes (UTF-8); the store's
      collection is a [list] in natural (insertion) order; the local disk is
      the list of the paths that exist.
    - What the sources leave to the platform is a parameter: the
      environment, [path.join], [Number] on strings, the store's regular
      expression engine beyond the fragment modelled, the schema's
      validation and its message, the driver's cast of id texts that are not
      24 hexadecimal digits, and the disk's refusal to unlink a path.
    - A handler is a computation in the monad [M]: it threads the world (the
      collection and the disk), the response object and a log of the
      store and disk operations performed, and completes normally or by a
      thrown [Error]. *)

From Stdlib Require Import ZArith QArith Qround List String Ascii Bool Lia.
From Stdlib Require Import Permutation Sorted.
From Stdlib Require Import Floats.
Import ListNotations.

Local Open Scope string_scope.
Local Open Scope list_scope.
Local Open Scope Z_scope.

(** ** The JavaScript runtime *)

Module Js.

(** A JSON scalar as a request body carries it. *)
Inductive Value : Type :=
| Undefined
| Null
| Boolean (b : bool)
| Num (n : float)
| Str (s : string).

(** [Number(v)]. [StringToNumber] is the runtime's numeric reading of a
    string (ECMAScript's StringToNumber), taken as a parameter. *)
Definition Number (StringToNumber : string -> float) (v : Value) : float :=
  match v with
  | Undefined => PrimFloat.nan
  | Null => 0%float
  | Boolean true => 1%float
  | Boolean false => 0%float
  | Num n => n
  | Str s => StringToNumber s
  end.

(** The number an array length is, as a binary64 value. *)
Definition ofLength (n : nat) : float :=
  PrimFloat.of_uint63 (Uint63.of_Z (Z.of_nat n)).

(** [Math.ceil(a / b)] on integral [a] and [b]. The quotient is exact; a zero
    divisor gives a non-finite number ([Infinity] or [NaN]), which is [None]
    here and [null] in a JSON body. *)
Definition ceil_div (a b : Z) : option Z :=
  if b =? 0 then None else Some (Qceiling (inject_Z a / inject_Z b)).

(** [s.startsWith(prefix)]. *)
Definition startsWith (s prefix : string) : bool := String.prefix prefix s.

(** Case folding of the 26 letters of ASCII: the case folding of a
    case-insensitive comparison on text that is ASCII throughout. *)
Definition lower (c : ascii) : ascii :=
  let n := nat_of_ascii c in
  if ((65 <=? n)%nat && (n <=? 90)%nat)%bool then ascii_of_nat (n + 32) else c.

(** Stable insertion sort by a boolean order: the order of equal elements is
    the order they had. *)
Fixpoint insert {A : Type} (le : A -> A -> bool) (x : A) (l : list A) : list A :=
  match l with
  | [] => [x]
  | y :: l' => if le x y then x :: l else y :: insert le x l'
  end.

Fixpoint sort_by {A : Type} (le : A -> A -> bool) (l : list A) : list A :=
  match l with
  | [] => []
  | x :: l' => insert le x (sort_by le l')
  end.

(** [array.sort()] on an array of strings: the default comparator orders
    strings by their code units. *)
Definition sort (l : list string) : list string := sort_by String.leb l.

End Js.

(** ** The store's order on numbers

    The document store compares doubles by value, with [NaN] below every
    number and the two zeros equal. [key_of] reads the value of a binary64
    number off its IEEE decomposition. *)

Module Bson.

Inductive key : Type :=
| KNaN
| KNegInf
| KFin (q : Q)
| KPosInf.

Definition key_of (f : float) : key :=
  match Prim2SF f with
  | S754_nan => KNaN
  | S754_infinity true => KNegInf
  | S754_infinity false => KPosInf
  | S754_zero _ => KFin 0
  | S754_finite s m e => KFin (inject_Z (cond_Zopp s (Zpos m)) * Qpower 2 e)
  end.

Definition key_leb (a b : key) : bool :=
  match a, b with
  | KNaN, _ => true
  | _, KNaN => false
  | KNegInf, _ => true
  | _, KNegInf => false
  | _, KPosInf => true
  | KPosInf, _ => false
  | KFin p, KFin q => Qle_bool p q
  end.

(** [leb a b]: [a] sorts before or with [b] in ascending order. *)
Definition leb (a b : float) : bool := key_leb (key_of a) (key_of b).

End Bson.

(** ** The store's regular expressions

    [$regex] hands the pattern to the store's Perl-compatible engine, which
    reads pattern and subject as UTF-8 text and, under option [i], folds the
    case of every letter it knows. Strings are bytes here. The fragment
    modelled: on ASCII text, the patterns made of literal characters, escaped
    punctuation, [.], and the postfix quantifiers [*], [+] and [?]. A pattern
    outside the fragment, and every subject that is not ASCII throughout, is
    left to the engine, a parameter of [compile]: it gives the test the
    pattern stands for, or nothing when it rejects the pattern. *)

Module Regex.

Inductive atom : Type :=
| Lit (c : ascii)
| AnyChar.

Inductive quant : Type :=
| One
| Star
| Plus
| Opt.

Definition item : Type := (atom * quant)%type.

(** A byte of ASCII text, and text that is ASCII throughout. In UTF-8 every
    other character is a sequence of bytes from 128 up. The byte 0, which
    the store refuses in a pattern, is not counted as text. *)
Definition is_ascii (c : ascii) : bool :=
  let n := nat_of_ascii c in ((0 <? n)%nat && (n <? 128)%nat)%bool.

Definition all_ascii (s : string) : bool := forallb is_ascii (list_ascii_of_string s).

(** The characters with a meaning of their own in a pattern. *)
Definition metachars : list ascii := list_ascii_of_string "\^$.|?*+()[]{}".

Definition is_meta (c : ascii) : bool := existsb (Ascii.eqb c) metachars.

Definition is_alnum (c : ascii) : bool :=
  let n := nat_of_ascii c in
  (((48 <=? n)%nat && (n <=? 57)%nat)
   || ((65 <=? n)%nat && (n <=? 90)%nat)
   || ((97 <=? n)%nat && (n <=? 122)%nat))%bool.

Definition quantifier (c : ascii) : option quant :=
  if Ascii.eqb c "*" then Some Star
  else if Ascii.eqb c "+" then Some Plus
  else if Ascii.eqb c "?" then Some Opt
  else None.

(** [parse p]: the items of the pattern, or [None] when the pattern is
    outside the fragment (a group, class, anchor, alternation, counted or
    doubled quantifier, an escape with a meaning of its own, or a pattern the
    engine rejects). *)
Fixpoint parse (p : list ascii) : option (list item) :=
  match p with
  | [] => Some []
  | c :: rest =>
      if Ascii.eqb c "\" then
        match rest with
        | [] => None
        | e :: rest1 =>
            if is_alnum e then None
            else
              match rest1 with
              | [] => Some [(Lit e, One)]
              | q :: rest2 =>
                  match quantifier q with
                  | Some k => option_map (cons (Lit e, k)) (parse rest2)
                  | None => option_map (cons (Lit e, One)) (parse rest1)
                  end
              end
        end
      else
        let a := if Ascii.eqb c "." then Some AnyChar
                 else if is_meta c then None else Some (Lit c) in
        match a with
        | None => None
        | Some a =>
            match rest with
            | [] => Some [(a, One)]
            | q :: rest1 =>
                match quantifier q with
                | Some k => option_map (cons (a, k)) (parse rest1)
                | None => option_map (cons (a, One)) (parse rest)
                end
            end
        end
  end.

(** One character of an ASCII subject against one atom, letter case ignored
    (option [i]); [.] matches every character but a line feed. *)
Definition atom_match (a : atom) (c : ascii) : bool :=
  match a with
  | Lit x => Ascii.eqb (Js.lower x) (Js.lower c)
  | AnyChar => negb (Ascii.eqb c "010")
  end.

(** [match_here re s]: some prefix of [s] matches the items [re]. *)
Fixpoint match_here (re : list item) (s : list ascii) {struct re} : bool :=
  match re with
  | [] => true
  | (a, q) :: re' =>
      let star :=
        fix star (s : list ascii) : bool :=
          match_here re' s
          || match s with
             | c :: s' => atom_match a c && star s'
             | [] => false
             end in
      match q with
      | One =>
          match s with
          | c :: s' => atom_match a c && match_here re' s'
          | [] => false
          end
      | Opt =>
          match_here re' s
          || match s with
             | c :: s' => atom_match a c && match_here re' s'
             | [] => false
             end
      | Star => star s
      | Plus =>
          match s with
          | c :: s' => atom_match a c && star s'
          | [] => false
          end
      end
  end.

(** An unanchored pattern matches when it matches at some position. *)
Fixpoint search (re : list item) (s : list ascii) : bool :=
  match_here re s
  || match s with
     | _ :: s' => search re s'
     | [] => false
     end.

(** The engine's answer for a pattern on a subject. *)
Definition delegate (engine : string -> option (string -> bool))
  (pattern subject : string) : bool :=
  match engine pattern with
  | Some test => test subject
  | None => false
  end.

(** [{ $regex: pattern, $options: 'i' }]: the test on strings the pattern
    stands for, [None] when the engine rejects the pattern. An ASCII pattern
    of the fragment is matched here against an ASCII subject; the engine,
    which accepts every pattern of the fragment, answers for the other
    subjects. *)
Definition compile (engine : string -> option (string -> bool)) (pattern : string)
  : option (string -> bool) :=
  match parse (list_ascii_of_string pattern) with
  | Some re =>
      if all_ascii pattern then
        Some (fun subject =>
                if all_ascii subject then search re (list_ascii_of_string subject)
                else delegate engine pattern subject)
      else engine pattern
  | None => engine pattern
  end.

End Regex.

(** ** The data model

    The schema of [models/productModel.js] is not among the sources: the
    records of reviews and products carry the fields the handlers read and
    write, with the types the specification's data model gives them. *)

(** A store identifier, by its hexadecimal text. *)
Record ObjectId : Type := { hex : string }.

Definition toString (i : ObjectId) : string := hex i.

Definition is_hex_digit (c : ascii) : bool :=
  let n := nat_of_ascii c in
  (((48 <=? n)%nat && (n <=? 57)%nat)
   || ((65 <=? n)%nat && (n <=? 70)%nat)
   || ((97 <=? n)%nat && (n <=? 102)%nat))%bool.

(** The cast the document model applies to the text of a path parameter
    before it queries by [_id]: 24 hexadecimal digits are an identifier,
    whose text is in lower case; other ASCII text is none, but for text of 12
    characters, which some versions of the driver read as 12 bytes; that
    text, and text that is not ASCII, is left to the driver, a parameter. *)
Definition castObjectId (driver_cast : string -> option ObjectId) (text : string)
  : option ObjectId :=
  let cs := list_ascii_of_string text in
  if ((List.length cs =? 24)%nat && forallb is_hex_digit cs)%bool
  then Some {| hex := string_of_list_ascii (map Js.lower cs) |}
  else if ((List.length cs =? 12)%nat
           || negb (forallb Regex.is_ascii cs))%bool
  then driver_cast text
  else None.

#[global] Arguments castObjectId : simpl never.

(** The message of the error a failed cast throws. *)
Definition quote (s : string) : string :=
  String (ascii_of_nat 34) (String.append s (String (ascii_of_nat 34) EmptyString)).

Definition cast_error (text : string) : string :=
  String.append "Cast to ObjectId failed for value "
    (String.append (quote text)
       (String.append " (type string) at path "
          (String.append (quote "_id")
             (String.append " for model " (quote "Product"))))).

#[global] Arguments cast_error : simpl never.

Module User.
(** [req.user], as the authentication middleware sets it. *)
Record t : Type := { _id : ObjectId; name : string }.
End User.

Module Review.
(** Modelled from the spec: the review sub-document of the missing schema
    of [models/productModel.js] (user reference, name, rating, comment). *)
Record t : Type := {
  name : string;
  rating : float;
  comment : string;
  user : ObjectId
}.
End Review.

Module Product.
(** Modelled from the spec: the product document of the missing schema of
    [models/productModel.js], field by field as the data model lists them. *)
Record t : Type := {
  _id : ObjectId;
  name : string;
  price : float;
  description : string;
  image : string;
  brand : string;
  category : string;
  countInStock : Z;
  colors : list string;
  char : string;
  year : option Z;
  numReviews : Z;
  rating : float;
  reviews : list Review.t;
  user : ObjectId
}.

(** Assignments to the paths of a loaded document. *)
Definition set_reviews (v : list Review.t) (p : t) : t :=
  {| _id := _id p; name := name p; price := price p;
     description := description p; image := image p; brand := brand p;
     category := category p; countInStock := countInStock p;
     colors := colors p; char := char p; year := year p;
     numReviews := numReviews p; rating := rating p;
     reviews := v; user := user p |}.

Definition set_numReviews (v : Z) (p : t) : t :=
  {| _id := _id p; name := name p; price := price p;
     description := description p; image := image p; brand := brand p;
     category := category p; countInStock := countInStock p;
     colors := colors p; char := char p; year := year p;
     numReviews := v; rating := rating p;
     reviews := reviews p; user := user p |}.

Definition set_rating (v : float) (p : t) : t :=
  {| _id := _id p; name := name p; price := price p;
     description := description p; image := image p; brand := brand p;
     category := category p; countInStock := countInStock p;
     colors := colors p; char := char p; year := year p;
     numReviews := numReviews p; rating := v;
     reviews := reviews p; user := user p |}.
End Product.

(** ** Requests and responses *)

Module Body.
(** [req.body]: the fields the handlers destructure from it. *)
Record t : Type := {
  name : string;
  price : float;
  description : string;
  image : string;
  brand : string;
  category : string;
  countInStock : Z;
  colors : list string;
  char : string;
  year : option Z;
  rating : Js.Value;
  comment : string
}.
End Body.

(** A request. [params_id] is the text of [req.params.id].
    [query_pageNumber] is [Number(req.query.pageNumber)] for an integral
    parameter and [None] when the parameter is absent or not a number
    ([NaN]). *)
Record Request : Type := {
  params_id : string;
  params_category : string;
  query_keyword : option string;
  query_pageNumber : option Z;
  body : Body.t;
  user : User.t
}.

(** [process.env]. The page-size variable is text; it is carried here by the
    integer the text denotes, [None] when the variable is unset or empty. *)
Record Env : Type := { PAGINATION_LIMIT : option Z }.

(** The bodies the handlers send. A number that is not finite is [null] in
    JSON, as an absent price is. *)
Inductive Json : Type :=
| JProduct (product : Product.t)
| JProducts (products : list Product.t)
| JPage (products : list Product.t) (page : Z) (pages : option Z)
| JCategoryPage (products : list Product.t) (category : string) (page : Z)
    (pages : option Z) (minPrice maxPrice : option float)
| JMessage (message : string)
| JStrings (values : list string)
| JYears (values : list (option Z)).

(** ** The world and the handler monad *)

Record World : Type := {
  products : list Product.t;
  files : list string
}.

(** The response object: the status set so far, and the body once sent. *)
Record Res : Type := {
  statusCode : Z;
  sent : option Json
}.

(** The store and disk operations a handler performs, in order. *)
Inductive Effect : Type :=
| DbFind
| DbCount
| DbAggregate
| DbFindById (id : ObjectId)
| DbInsert (id : ObjectId)
| DbSave (id : ObjectId)
| DbDeleteOne (id : ObjectId)
| FsExists (path : string)
| FsUnlink (path : string).

Record St : Type := {
  world : World;
  res : Res;
  log : list Effect
}.

Inductive Completion (A : Type) : Type :=
| Normal (a : A)
| Thrown (message : string).

Arguments Normal {A} a.
Arguments Thrown {A} message.

Definition M (A : Type) : Type := St -> Completion A * St.

Definition ret {A : Type} (a : A) : M A := fun s => (Normal a, s).

Definition bind {A B : Type} (m : M A) (k : A -> M B) : M B :=
  fun s =>
    match m s with
    | (Normal a, s') => k a s'
    | (Thrown e, s') => (Thrown e, s')
    end.

(** [throw new Error(message)]. *)
Definition throw {A : Type} (message : string) : M A :=
  fun s => (Thrown message, s).

Declare Scope handler_scope.
Delimit Scope handler_scope with handler.

Notation "x <- m ;; k" := (bind m (fun x => k))
  (at level 100, m at next level, right associativity) : handler_scope.
Notation "m ;; k" := (bind m (fun _ => k))
  (at level 100, right associativity) : handler_scope.

Local Open Scope handler_scope.

Definition record (e : Effect) : M unit :=
  fun s => (Normal tt, {| world := world s; res := res s; log := log s ++ [e] |}).

Definition get_world : M World := fun s => (Normal (world s), s).

Definition put_world (w : World) : M unit :=
  fun s => (Normal tt, {| world := w; res := res s; log := log s |}).

(** [res.status(code)]. *)
Definition res_status (code : Z) : M unit :=
  fun s =>
    (Normal tt,
     {| world := world s;
        res := {| statusCode := code; sent := sent (res s) |};
        log := log s |}).

(** [res.json(body)]: the body goes out under the status set so far. *)
Definition res_json (b : Json) : M unit :=
  fun s =>
    (Normal tt,
     {| world := world s;
        res := {| statusCode := statusCode (res s); sent := Some b |};
        log := log s |}).

(** A request starts on a fresh response object (status 200, nothing sent)
    and an empty log. *)
Definition start (w : World) : St :=
  {| world := w; res := {| statusCode := 200; sent := None |}; log := [] |}.

Definition run (h : M unit) (w : World) : Completion unit * St := h (start w).

(** ** The store

    The operations of the document model [Product] the handlers call. The
    collection is read in its natural order. *)

(** The query documents the handlers build. *)
Inductive Filter : Type :=
| FAll                              (* {} *)
| FNameRegex (pattern : string)     (* { name: { $regex: pattern, $options: 'i' } } *)
| FCategory (category : string).    (* { category: category } *)

(** A query under construction: [find] opens it, [limit], [skip] and [sort]
    set its options in any order, [exec] (the [await]) runs it. *)
Record Query : Type := {
  q_filter : Filter;
  q_sort_rating_desc : bool;
  q_skip : option Z;
  q_limit : option Z
}.

Definition find (f : Filter) : Query :=
  {| q_filter := f; q_sort_rating_desc := false; q_skip := None; q_limit := None |}.

Definition limit (n : Z) (q : Query) : Query :=
  {| q_filter := q_filter q; q_sort_rating_desc := q_sort_rating_desc q;
     q_skip := q_skip q; q_limit := Some n |}.

Definition skip (n : Z) (q : Query) : Query :=
  {| q_filter := q_filter q; q_sort_rating_desc := q_sort_rating_desc q;
     q_skip := Some n; q_limit := q_limit q |}.

(** [.sort({ rating: -1 })]. *)
Definition sort_rating_desc (q : Query) : Query :=
  {| q_filter := q_filter q; q_sort_rating_desc := true;
     q_skip := q_skip q; q_limit := q_limit q |}.

(** Descending order of rating: [p] comes before or with [q]. *)
Definition rating_desc (p q : Product.t) : bool :=
  Bson.leb (Product.rating q) (Product.rating p).

(** A limit of zero is no limit; a negative limit is its absolute value. *)
Definition apply_limit (n : option Z) (docs : list Product.t) : list Product.t :=
  match n with
  | None => docs
  | Some n => if n =? 0 then docs else firstn (Z.abs_nat n) docs
  end.

(** Pipeline stages of [aggregate]. [$group] gives one document for each
    distinct [_id], here in the order of first occurrence. *)
Fixpoint group {K : Type} (eqb : K -> K -> bool) (ids : list K) : list K :=
  match ids with
  | [] => []
  | k :: ids' => k :: filter (fun k' => negb (eqb k k')) (group eqb ids')
  end.

Definition unwind_colors (docs : list Product.t) : list string :=
  flat_map Product.colors docs.

(** [{ $match: { year: { $ne: null } } }]. *)
Definition match_year_ne_null (docs : list Product.t) : list Product.t :=
  filter (fun p => match Product.year p with Some _ => true | None => false end) docs.

Definition year_eqb (a b : option Z) : bool :=
  match a, b with
  | Some x, Some y => x =? y
  | None, None => true
  | _, _ => false
  end.

(** The one group of [{ $group: { _id: null, minPrice: { $min: '$price' },
    maxPrice: { $max: '$price' } } }]; no input document, no group. *)
Record PriceRange : Type := { minPrice : float; maxPrice : float }.

Definition bson_min (a b : float) : float := if Bson.leb a b then a else b.
Definition bson_max (a b : float) : float := if Bson.leb a b then b else a.

Definition group_price_range (docs : list Product.t) : list PriceRange :=
  match docs with
  | [] => []
  | p :: docs' =>
      [{| minPrice := fold_left bson_min (map Product.price docs') (Product.price p);
          maxPrice := fold_left bson_max (map Product.price docs') (Product.price p) |}]
  end.

(** A saved document takes the place of the stored one of the same [_id]. *)
Fixpoint replace (p : Product.t) (docs : list Product.t) : list Product.t :=
  match docs with
  | [] => []
  | d :: docs' =>
      if String.eqb (toString (Product._id d)) (toString (Product._id p))
      then p :: docs'
      else d :: replace p docs'
  end.

Fixpoint remove_id (id : ObjectId) (docs : list Product.t) : list Product.t :=
  match docs with
  | [] => []
  | d :: docs' =>
      if String.eqb (toString (Product._id d)) (toString id)
      then docs'
      else d :: remove_id id docs'
  end.

Fixpoint lookup (id : ObjectId) (docs : list Product.t) : option Product.t :=
  match docs with
  | [] => None
  | d :: docs' =>
      if String.eqb (toString (Product._id d)) (toString id)
      then Some d
      else lookup id docs'
  end.

Fixpoint remove_path (path : string) (fs : list string) : list string :=
  match fs with
  | [] => []
  | f :: fs' => if String.eqb f path then remove_path path fs' else f :: remove_path path fs'
  end.

(** Modelled from the spec: the defaults of the missing schema of
    [models/productModel.js]; a product is created with a rating of 0 (the
    specification's example) and with no review. *)
Definition default_rating : float := 0%float.

(** Modelled from the spec: the default of [reviews] in the missing schema. *)
Definition default_reviews : list Review.t := [].

Section Runtime.

(** [process.env], and the working directory [path.resolve()] returns. *)
Variable env : Env.
Variable cwd : string.

(** Functions of the platform: ECMAScript's numeric reading of a string,
    Node's [path.join], and the store's regular-expression engine on the
    patterns [Regex.parse] leaves to it. *)
Variable StringToNumber : string -> float.
Variable path_join : string -> string -> string.
Variable regex_engine : string -> option (string -> bool).

(** The validation the schema of [models/productModel.js] asks of a
    product before it is written; the schema is not among the sources. *)
Variable validate : Product.t -> bool.

(** The driver's cast of the identifier texts [castObjectId] leaves to it;
    the error, if any, with which the disk refuses to unlink an existing path
    (a directory, a file it may not remove); and the message of the
    validation error of a product that fails validation. *)
Variable driver_cast : string -> option ObjectId.
Variable unlink_refusal : string -> option string.
Variable validation_message : Product.t -> string.

(** The test a query document stands for, [None] when the store rejects
    the document (a pattern that is no regular expression). *)
Definition matcher (f : Filter) : option (Product.t -> bool) :=
  match f with
  | FAll => Some (fun _ => true)
  | FNameRegex pattern =>
      option_map (fun test p => test (Product.name p)) (Regex.compile regex_engine pattern)
  | FCategory c => Some (fun p => String.eqb (Product.category p) c)
  end.

(** [await query]: filter, then sort, then skip, then limit, whatever the
    order the options were set in. The store refuses a negative skip. *)
Definition exec (q : Query) : M (list Product.t) :=
  record DbFind;;
  w <- get_world;;
  match matcher (q_filter q) with
  | None => throw "Regular expression is invalid"
  | Some m =>
      let docs := filter m (products w) in
      let docs := if q_sort_rating_desc q then Js.sort_by rating_desc docs else docs in
      match q_skip q with
      | None => ret (apply_limit (q_limit q) docs)
      | Some k =>
          if k <? 0 then throw "Skip value must be non-negative"
          else ret (apply_limit (q_limit q) (skipn (Z.to_nat k) docs))
      end
  end.

(** [Product.countDocuments(filter)]. *)
Definition countDocuments (f : Filter) : M Z :=
  record DbCount;;
  w <- get_world;;
  match matcher f with
  | None => throw "Regular expression is invalid"
  | Some m => ret (Z.of_nat (List.length (filter m (products w))))
  end.

(** [Product.aggregate(pipeline)], the pipeline as the function it computes
    on the collection. *)
Definition aggregate {A : Type} (pipeline : list Product.t -> list A) : M (list A) :=
  record DbAggregate;;
  w <- get_world;;
  ret (pipeline (products w)).

(** [Product.aggregate([{ $match: f }, ...pipeline])]. *)
Definition aggregate_match {A : Type} (f : Filter) (pipeline : list Product.t -> list A)
  : M (list A) :=
  record DbAggregate;;
  w <- get_world;;
  match matcher f with
  | None => throw "Regular expression is invalid"
  | Some m => ret (pipeline (filter m (products w)))
  end.

(** [Product.findById(id)]: the text is cast to an identifier, and the
    query goes to the store only when the cast succeeds. *)
Definition findById (text : string) : M (option Product.t) :=
  match castObjectId driver_cast text with
  | None => throw (cast_error text)
  | Some id =>
      record (DbFindById id);;
      w <- get_world;;
      ret (lookup id (products w))
  end.

(** [product.save()] on a loaded document: validation, then the write. *)
Definition save (p : Product.t) : M Product.t :=
  if validate p then
    record (DbSave (Product._id p));;
    w <- get_world;;
    put_world {| products := replace p (products w); files := files w |};;
    ret p
  else throw (validation_message p).

(** [product.save()] on a new document: validation, then an insertion,
    which the store refuses when the collection holds a document of the same
    [_id]. *)
Definition insert (p : Product.t) : M Product.t :=
  if validate p then
    record (DbInsert (Product._id p));;
    w <- get_world;;
    match lookup (Product._id p) (products w) with
    | Some _ => throw "E11000 duplicate key error"
    | None =>
        put_world {| products := products w ++ [p]; files := files w |};;
        ret p
    end
  else throw (validation_message p).

(** [Product.deleteOne({ _id: id })]. *)
Definition deleteOne (id : ObjectId) : M unit :=
  record (DbDeleteOne id);;
  w <- get_world;;
  put_world {| products := remove_id id (products w); files := files w |}.

(** ** The disk *)

Definition existsSync (path : string) : M bool :=
  record (FsExists path);;
  w <- get_world;;
  ret (existsb (String.eqb path) (files w)).

(** [unlink(path)]: the path goes, unless the disk refuses. *)
Definition unlink (path : string) : M unit :=
  record (FsUnlink path);;
  w <- get_world;;
  if existsb (String.eqb path) (files w)
  then
    match unlink_refusal path with
    | None => put_world {| products := products w; files := remove_path path (files w) |}
    | Some e => throw e
    end
  else throw "ENOENT: no such file or directory".

(** ** The handlers *)

(** [process.env.PAGINATION_LIMIT || 10]: text, when set and not empty, is
    truthy whatever number it denotes. *)
Definition pageSize : Z :=
  match PAGINATION_LIMIT env with
  | Some n => n
  | None => 10
  end.

(** [Number(req.query.pageNumber) || 1]: zero and [NaN] are falsy. *)
Definition pageNumber (req : Request) : Z :=
  match query_pageNumber req with
  | Some 0 => 1
  | Some n => n
  | None => 1
  end.

(** GET /api/products *)
Definition getProducts (req : Request) : M unit :=
  let pageSize := pageSize in
  let page := pageNumber req in
  let keyword :=
    match query_keyword req with
    | Some k => if String.eqb k "" then FAll else FNameRegex k
    | None => FAll
    end in
  count <- countDocuments keyword;;
  products <- exec (skip (pageSize * (page - 1)) (limit pageSize (find keyword)));;
  res_json (JPage products page (Js.ceil_div count pageSize)).

(** GET /api/products/category/:category *)
Definition getProductsByCategory (req : Request) : M unit :=
  let pageSize := pageSize in
  let page := pageNumber req in
  let category := params_category req in
  let keyword := if String.eqb category "" then FAll else FCategory category in
  minMaxPrice <- aggregate_match keyword group_price_range;;
  count <- countDocuments keyword;;
  products <- exec (skip (pageSize * (page - 1)) (limit pageSize (find keyword)));;
  (if (List.length products =? 0)%nat then res_status 404 else ret tt);;
  res_json
    (JCategoryPage products category page (Js.ceil_div count pageSize)
       (match minMaxPrice with r :: _ => Some (minPrice r) | [] => None end)
       (match minMaxPrice with r :: _ => Some (maxPrice r) | [] => None end)).

(** GET /api/products/:id *)
Definition getProductById (req : Request) : M unit :=
  product <- findById (params_id req);;
  match product with
  | Some product => res_json (JProduct product)
  | None => res_status 404;; throw "Product not found"
  end.

(** POST /api/products. [oid] is the identifier the new document is given
    when it is constructed. *)
Definition createProduct (oid : ObjectId) (req : Request) : M unit :=
  let b := body req in
  let product :=
    {| Product._id := oid;
       Product.name := Body.name b;
       Product.price := Body.price b;
       Product.user := User._id (user req);
       Product.image := Body.image b;
       Product.brand := Body.brand b;
       Product.category := Body.category b;
       Product.countInStock := Body.countInStock b;
       Product.numReviews := 0;
       Product.description := Body.description b;
       Product.colors := Body.colors b;
       Product.char := Body.char b;
       Product.year := Body.year b;
       Product.rating := default_rating;
       Product.reviews := default_reviews |} in
  createdProduct <- insert product;;
  res_status 201;;
  res_json (JProduct createdProduct).

(** PUT /api/products/:id *)
Definition updateProduct (req : Request) : M unit :=
  let b := body req in
  product <- findById (params_id req);;
  match product with
  | Some product =>
      let product :=
        {| Product.name := Body.name b;
           Product.price := Body.price b;
           Product.description := Body.description b;
           Product.image := Body.image b;
           Product.brand := Body.brand b;
           Product.category := Body.category b;
           Product.countInStock := Body.countInStock b;
           Product.colors := Body.colors b;
           Product.char := Body.char b;
           Product.year := Body.year b;
           Product._id := Product._id product;
           Product.numReviews := Product.numReviews product;
           Product.rating := Product.rating product;
           Product.reviews := Product.reviews product;
           Product.user := Product.user product |} in
      updatedProduct <- save product;;
      res_json (JProduct updatedProduct)
  | None => res_status 404;; throw "Product not found"
  end.

(** DELETE /api/products/:id *)
Definition deleteProduct (req : Request) : M unit :=
  product <- findById (params_id req);;
  match product with
  | Some product =>
      let __dirname := cwd in
      (if Js.startsWith (Product.image product) "/uploads" then
         let filePath := path_join __dirname (Product.image product) in
         present <- existsSync filePath;;
         if present then unlink filePath else ret tt
       else ret tt);;
      deleteOne (Product._id product);;
      res_json (JMessage "Product removed")
  | None => res_status 404;; throw "Product not found"
  end.

(** POST /api/products/:id/reviews *)
Definition createProductReview (req : Request) : M unit :=
  let b := body req in
  product <- findById (params_id req);;
  match product with
  | Some product =>
      let alreadyReviewed :=
        List.find
          (fun r => String.eqb (toString (Review.user r)) (toString (User._id (user req))))
          (Product.reviews product) in
      match alreadyReviewed with
      | Some _ => res_status 400;; throw "Product already reviewed"
      | None =>
          let review :=
            {| Review.name := User.name (user req);
               Review.rating := Js.Number StringToNumber (Body.rating b);
               Review.comment := Body.comment b;
               Review.user := User._id (user req) |} in
          let product := Product.set_reviews (Product.reviews product ++ [review]) product in
          let product :=
            Product.set_numReviews (Z.of_nat (List.length (Product.reviews product))) product in
          let product :=
            Product.set_rating
              (fold_left (fun acc item => Review.rating item + acc)
                 (Product.reviews product) 0
               / Js.ofLength (List.length (Product.reviews product)))%float
              product in
          save product;;
          res_status 201;;
          res_json (JMessage "Review added")
      end
  | None => res_status 404;; throw "Product not found"
  end.

(** GET /api/products/top *)
Definition getTopProducts (req : Request) : M unit :=
  products <- exec (limit 3 (sort_rating_desc (find FAll)));;
  res_json (JProducts products).

(** GET /api/products/brands. An aggregate's result documents are carried
    by the one value they hold, so the [map] that projects it is the
    identity. *)
Definition getAllBrands (req : Request) : M unit :=
  brands <- aggregate (fun docs => group String.eqb (map Product.brand docs));;
  let brandNames := Js.sort (map (fun brand => brand) brands) in
  res_json (JStrings brandNames).

(** GET /api/products/colors *)
Definition getAllColors (req : Request) : M unit :=
  colors <- aggregate (fun docs => group String.eqb (unwind_colors docs));;
  let colorNames := map (fun color => color) colors in
  res_json (JStrings colorNames).

(** GET /api/products/years *)
Definition getAllYears (req : Request) : M unit :=
  years <- aggregate (fun docs => group year_eqb (map Product.year (match_year_ne_null docs)));;
  let yearNames := map (fun year => year) years in
  res_json (JYears yearNames).

End Runtime.

(** ** Reachable worlds

    The operations a client can ask for, and the worlds the handlers produce
    from an empty collection. *)

Inductive Operation : Type :=
| OpGetProducts
| OpGetProductsByCategory
| OpGetProductById
| OpCreateProduct (oid : ObjectId)
| OpUpdateProduct
| OpDeleteProduct
| OpCreateProductReview
| OpGetTopProducts
| OpGetAllBrands
| OpGetAllColors
| OpGetAllYears.

Record Platform : Type := {
  p_env : Env;
  p_cwd : string;
  p_StringToNumber : string -> float;
  p_path_join : string -> string -> string;
  p_regex_engine : string -> option (string -> bool);
  p_validate : Product.t -> bool;
  p_driver_cast : string -> option ObjectId;
  p_unlink_refusal : string -> option string;
  p_validation_message : Product.t -> string
}.

Definition handler (pf : Platform) (op : Operation) (req : Request) : M unit :=
  match op with
  | OpGetProducts => getProducts (p_env pf) (p_regex_engine pf) req
  | OpGetProductsByCategory => getProductsByCategory (p_env pf) (p_regex_engine pf) req
  | OpGetProductById => getProductById (p_driver_cast pf) req
  | OpCreateProduct oid =>
      createProduct (p_validate pf) (p_validation_message pf) oid req
  | OpUpdateProduct =>
      updateProduct (p_validate pf) (p_driver_cast pf) (p_validation_message pf) req
  | OpDeleteProduct =>
      deleteProduct (p_cwd pf) (p_path_join pf) (p_driver_cast pf)
        (p_unlink_refusal pf) req
  | OpCreateProductReview =>
      createProductReview (p_StringToNumber pf) (p_validate pf) (p_driver_cast pf)
        (p_validation_message pf) req
  | OpGetTopProducts => getTopProducts (p_regex_engine pf) req
  | OpGetAllBrands => getAllBrands req
  | OpGetAllColors => getAllColors req
  | OpGetAllYears => getAllYears req
  end.

Inductive reachable (pf : Platform) : World -> Prop :=
| reach_empty (fs : list string) :
    reachable pf {| products := []; files := fs |}
| reach_step (w : World) (op : Operation) (req : Request) :
    reachable pf w ->
    reachable pf (world (snd (run (handler pf op req) w))).


(** ** Vocabulary of the properties *)

(** The stored documents have pairwise distinct identifiers. *)
Definition unique_ids (docs : list Product.t) : Prop :=
  NoDup (map Product._id docs).

(** What a handler leaves when it finds no product: the error thrown under
    status 404, nothing sent, the world as it was. *)
Definition not_found (id : ObjectId) (w : World) : Completion unit * St :=
  (Thrown "Product not found",
   {| world := w;
      res := {| statusCode := 404; sent := None |};
      log := [DbFindById id] |}).

(** What a handler leaves when the text of the id denotes no identifier: the
    cast error thrown before the store is asked and before any status is
    set, nothing sent, the world as it was. *)
Definition cast_failed (text : string) (w : World) : Completion unit * St :=
  (Thrown (cast_error text),
   {| world := w;
      res := {| statusCode := 200; sent := None |};
      log := [] |}).

(** The sum of the ratings of a reviews sequence, taken along the sequence,
    and their arithmetic mean: the sum divided by the count. *)
Definition sum_ratings (l : list Review.t) : float :=
  fold_left (fun acc item => (Review.rating item + acc)%float) l 0%float.

Definition mean_rating (l : list Review.t) : float :=
  (sum_ratings l / Js.ofLength (List.length l))%float.

(** At most one review for each user reference. *)
Definition one_review_per_user (p : Product.t) : Prop :=
  NoDup (map Review.user (Product.reviews p)).

(** The review a request makes: the caller's display name, the rating as a
    number, the comment, the caller's identity. *)
Definition review_from (StringToNumber : string -> float) (req : Request) : Review.t :=
  {| Review.name := User.name (user req);
     Review.rating := Js.Number StringToNumber (Body.rating (body req));
     Review.comment := Body.comment (body req);
     Review.user := User._id (user req) |}.

(** The product after the review is appended and the two derived fields are
    recomputed. *)
Definition reviewed (StringToNumber : string -> float) (req : Request) (p : Product.t)
  : Product.t :=
  let rs := Product.reviews p ++ [review_from StringToNumber req] in
  Product.set_rating (mean_rating rs)
    (Product.set_numReviews (Z.of_nat (List.length rs))
       (Product.set_reviews rs p)).

(** The product after an update: the ten fields of the body, and the rest
    of the stored record. *)
Definition updated (b : Body.t) (p : Product.t) : Product.t :=
  {| Product._id := Product._id p;
     Product.name := Body.name b;
     Product.price := Body.price b;
     Product.description := Body.description b;
     Product.image := Body.image b;
     Product.brand := Body.brand b;
     Product.category := Body.category b;
     Product.countInStock := Body.countInStock b;
     Product.colors := Body.colors b;
     Product.char := Body.char b;
     Product.year := Body.year b;
     Product.numReviews := Product.numReviews p;
     Product.rating := Product.rating p;
     Product.reviews := Product.reviews p;
     Product.user := Product.user p |}.

(** The query document [getProducts] builds from the keyword. *)
Definition keyword_filter (req : Request) : Filter :=
  match query_keyword req with
  | Some k => if String.eqb k "" then FAll else FNameRegex k
  | None => FAll
  end.

(** The same request for another page. *)
Definition with_pageNumber (i : Z) (req : Request) : Request :=
  {| params_id := params_id req;
     params_category := params_category req;
     query_keyword := query_keyword req;
     query_pageNumber := Some i;
     body := body req;
     user := user req |}.

(** The products of the body a handler has sent. *)
Definition sent_products (r : Completion unit * St) : list Product.t :=
  match r with
  | (Normal _, s) =>
      match sent (res s) with
      | Some (JPage products _ _) => products
      | Some (JCategoryPage products _ _ _ _ _) => products
      | Some (JProducts products) => products
      | _ => []
      end
  | (Thrown _, _) => []
  end.

(** Page [i] of the catalog listing, as [getProducts] sends it. *)
Definition listing (env : Env) (regex_engine : string -> option (string -> bool))
  (w : World) (req : Request) (i : Z) : list Product.t :=
  sent_products (run (getProducts env regex_engine (with_pageNumber i req)) w).



(** The query document [getProductsByCategory] builds from the category,
    and the test it stands for. *)
Definition category_filter (req : Request) : Filter :=
  if String.eqb (params_category req) "" then FAll else FCategory (params_category req).

Definition in_category (req : Request) (p : Product.t) : bool :=
  if String.eqb (params_category req) "" then true
  else String.eqb (Product.category p) (params_category req).

(** The four ways a request leaves the collection: as it was, with a new
    product that has no review, with one product saved again, or with one
    product removed. *)
Inductive step_products (pf : Platform) (req : Request) (docs : list Product.t)
  : list Product.t -> Prop :=
| step_same : step_products pf req docs docs
| step_created (n : Product.t) :
    lookup (Product._id n) docs = None ->
    Product.reviews n = [] ->
    Product.numReviews n = 0 ->
    step_products pf req docs (docs ++ [n])
| step_updated (id : ObjectId) (p p' : Product.t) :
    lookup id docs = Some p ->
    Product._id p' = Product._id p ->
    Product.reviews p' = Product.reviews p ->
    Product.numReviews p' = Product.numReviews p ->
    step_products pf req docs (replace p' docs)
| step_reviewed (id : ObjectId) (p : Product.t) :
    lookup id docs = Some p ->
    List.find
      (fun r => String.eqb (toString (Review.user r)) (toString (User._id (user req))))
      (Product.reviews p) = None ->
    step_products pf req docs (replace (reviewed (p_StringToNumber pf) req p) docs)
| step_removed (id : ObjectId) :
    step_products pf req docs (remove_id id docs).

(** ** Sample data *)

(** The identifier of 24 hexadecimal digits that ends in the two given. *)
Definition oid (s : string) : ObjectId :=
  {| hex := String.append "0000000000000000000000" s |}.

Definition alice : User.t := {| User._id := oid "a1"; User.name := "Alice" |}.
Definition bob : User.t := {| User._id := oid "b2"; User.name := "Bob" |}.

Definition widget : Product.t :=
  {| Product._id := oid "01";
     Product.name := "Widget";
     Product.price := 9.5%float;
     Product.description := "A widget";
     Product.image := "/uploads/widget.jpg";
     Product.brand := "Acme";
     Product.category := "tools";
     Product.countInStock := 5;
     Product.colors := ["red"; "blue"];
     Product.char := "";
     Product.year := Some 2020;
     Product.numReviews := 0;
     Product.rating := 0%float;
     Product.reviews := [];
     Product.user := oid "a0" |}.

Definition review_of (u : User.t) (rating : float) (comment : string) : Review.t :=
  {| Review.name := User.name u;
     Review.rating := rating;
     Review.comment := comment;
     Review.user := User._id u |}.

Definition sample_body (rating : Js.Value) (comment : string) : Body.t :=
  {| Body.name := "Gadget";
     Body.price := 20%float;
     Body.description := "A gadget";
     Body.image := "https://cdn.example.com/gadget.png";
     Body.brand := "Bolt";
     Body.category := "tools";
     Body.countInStock := 3;
     Body.colors := ["green"];
     Body.char := "";
     Body.year := None;
     Body.rating := rating;
     Body.comment := comment |}.

Definition sample_request (id : ObjectId) (u : User.t) (b : Body.t) : Request :=
  {| params_id := toString id;
     params_category := "tools";
     query_keyword := None;
     query_pageNumber := None;
     body := b;
     user := u |}.

Definition no_env : Env := {| PAGINATION_LIMIT := None |}.
Definition no_number : string -> float := fun _ => PrimFloat.nan.
Definition concat_paths : string -> string -> string := String.append.
Definition no_engine : string -> option (string -> bool) := fun _ => None.
Definition any_product : Product.t -> bool := fun _ => true.
Definition no_driver_cast : string -> option ObjectId := fun _ => None.
Definition no_refusal : string -> option string := fun _ => None.
Definition invalid_product : Product.t -> string :=
  fun p => String.append "Product validation failed: " (Product.name p).

Definition gadget : Product.t :=
  {| Product._id := oid "02";
     Product.name := "Gadget";
     Product.price := 20%float;
     Product.description := "A gadget";
     Product.image := "https://cdn.example.com/gadget.png";
     Product.brand := "Bolt";
     Product.category := "tools";
     Product.countInStock := 3;
     Product.colors := ["green"];
     Product.char := "";
     Product.year := None;
     Product.numReviews := 1;
     Product.rating := 4%float;
     Product.reviews := [review_of alice 4%float "ok"];
     Product.user := oid "a0" |}.

Definition gizmo : Product.t :=
  {| Product._id := oid "03";
     Product.name := "Gizmo";
     Product.price := 5%float;
     Product.description := "A gizmo";
     Product.image := "/uploads/gizmo.jpg";
     Product.brand := "Acme";
     Product.category := "toys";
     Product.countInStock := 0;
     Product.colors := ["red"];
     Product.char := "";
     Product.year := Some 2020;
     Product.numReviews := 1;
     Product.rating := 3%float;
     Product.reviews := [review_of bob 3%float "fine"];
     Product.user := oid "a0" |}.

Definition doohickey : Product.t :=
  {| Product._id := oid "04";
     Product.name := "Doohickey";
     Product.price := 12.5%float;
     Product.description := "A doohickey";
     Product.image := "https://cdn.example.com/doohickey.png";
     Product.brand := "Zed";
     Product.category := "tools";
     Product.countInStock := 7;
     Product.colors := [];
     Product.char := "";
     Product.year := Some 2023;
     Product.numReviews := 1;
     Product.rating := 5%float;
     Product.reviews := [review_of bob 5%float "great"];
     Product.user := oid "a0" |}.


Definition shop : World :=
  {| products := [widget; gadget; gizmo; doohickey];
     files := ["/srv/app/uploads/widget.jpg"] |}.


Definition search_request (keyword : option string) (page : option Z) : Request :=
  {| params_id := toString (oid "00");
     params_category := "tools";
     query_keyword := keyword;
     query_pageNumber := page;
     body := sample_body Js.Undefined "";
     user := alice |}.

Definition small_pages : Env := {| PAGINATION_LIMIT := Some 2 |}.

Definition sample_platform : Platform :=
  {| p_env := no_env;
     p_cwd := "/srv/app";
     p_StringToNumber := no_number;
     p_path_join := concat_paths;
     p_regex_engine := no_engine;
     p_validate := any_product;
     p_driver_cast := no_driver_cast;
     p_unlink_refusal := no_refusal;
     p_validation_message := invalid_product |}.

(** The world after a product is created in an empty collection and Bob
    reviews it. *)
Definition reviewed_once : World :=
  world (snd (run (handler sample_platform OpCreateProductReview
                     (sample_request (oid "09") bob (sample_body (Js.Num 4) "ok")))
            (world (snd (run (handler sample_platform (OpCreateProduct (oid "09"))
                               (sample_request (oid "00") alice
                                  (sample_body Js.Undefined "")))
                      {| products := []; files := [] |}))))).

(** ** Proof automation *)

(** Unfolds a handler down to the state it computes. *)
Ltac unfold_handler :=
  unfold run, start, handler, getProducts, getProductsByCategory, getProductById,
    createProduct, updateProduct, deleteProduct, createProductReview,
    getTopProducts, getAllBrands, getAllColors, getAllYears,
    exec, countDocuments, aggregate, findById, save, insert, deleteOne,
    existsSync, unlink, bind, ret, throw, record, get_world, put_world,
    aggregate_match, res_status, res_json.

(** Splits the goal along the tests a read-only handler branches on. *)
Ltac split_cases :=
  repeat (simpl;
          match goal with
          | |- context [match matcher ?e ?f with _ => _ end] =>
              destruct (matcher e f) eqn:?
          | |- context [if ?b then _ else _] => destruct b eqn:?
          end);
  simpl.

(** Proves that the identifiers of a literal list of products are distinct. *)
Ltac distinct_ids :=
  repeat (constructor; [simpl; intuition discriminate|]); constructor.


(** ** Vocabulary of the further properties *)

(** The product [createProduct] constructs. *)
Definition created (oid : ObjectId) (req : Request) : Product.t :=
  {| Product._id := oid;
     Product.name := Body.name (body req);
     Product.price := Body.price (body req);
     Product.description := Body.description (body req);
     Product.image := Body.image (body req);
     Product.brand := Body.brand (body req);
     Product.category := Body.category (body req);
     Product.countInStock := Body.countInStock (body req);
     Product.colors := Body.colors (body req);
     Product.char := Body.char (body req);
     Product.year := Body.year (body req);
     Product.numReviews := 0;
     Product.rating := default_rating;
     Product.reviews := default_reviews;
     Product.user := User._id (user req) |}.

(** The error, if any, with which the disk refuses the unlink that
    [deleteProduct] asks for when it deletes product [p] in world [w]: the
    image is under [/uploads], its path is on the disk, and the disk refuses
    to unlink it. *)
Definition unlink_refused (cwd : string) (path_join : string -> string -> string)
  (unlink_refusal : string -> option string) (w : World) (p : Product.t)
  : option string :=
  if Js.startsWith (Product.image p) "/uploads" then
    let filePath := path_join cwd (Product.image p) in
    if existsb (String.eqb filePath) (files w) then unlink_refusal filePath else None
  else None.

(** The effects that only read the store. *)
Definition reads_store (e : Effect) : bool :=
  match e with
  | DbFind | DbCount | DbAggregate | DbFindById _ => true
  | DbInsert _ | DbSave _ | DbDeleteOne _ | FsExists _ | FsUnlink _ => false
  end.

(** The same request with another keyword. *)
Definition with_keyword (k : option string) (req : Request) : Request :=
  {| params_id := params_id req;
     params_category := params_category req;
     query_keyword := k;
     query_pageNumber := query_pageNumber req;
     body := body req;
     user := user req |}.

(** Page [i] of the listing of a category, as [getProductsByCategory] sends
    it. *)
Definition category_listing (env : Env) (regex_engine : string -> option (string -> bool))
  (w : World) (req : Request) (i : Z) : list Product.t :=
  sent_products (run (getProductsByCategory env regex_engine (with_pageNumber i req)) w).

(** The page count and the price range of the body of a category listing. *)
Definition sent_range (r : Completion unit * St)
  : option (option Z * option float * option float) :=
  match sent (res (snd r)) with
  | Some (JCategoryPage _ _ _ pages lo hi) => Some (pages, lo, hi)
  | _ => None
  end.

(** A rejecting validation, for the instances. *)
Definition no_product : Product.t -> bool := fun _ => false.

(** The sample collection in the opposite order. *)
Definition shop_reversed : World :=
  {| products := rev (products shop); files := files shop |}.

(** A request whose id is text that denotes no identifier. *)
Definition unparsable_request : Request :=
  {| params_id := "abc";
     params_category := "tools";
     query_keyword := None;
     query_pageNumber := None;
     body := sample_body Js.Undefined "";
     user := alice |}.

(** A product whose image path is the upload directory itself. *)
Definition folder : Product.t :=
  {| Product._id := oid "06";
     Product.name := "Folder";
     Product.price := 3%float;
     Product.description := "";
     Product.image := "/uploads";
     Product.brand := "Acme";
     Product.category := "tools";
     Product.countInStock := 1;
     Product.colors := [];
     Product.char := "";
     Product.year := None;
     Product.numReviews := 0;
     Product.rating := 0%float;
     Product.reviews := [];
     Product.user := oid "a0" |}.

(** The world that holds it, with the directory on the disk. *)
Definition depot : World :=
  {| products := [folder]; files := ["/srv/app/uploads"] |}.

(** A disk that refuses to unlink that directory. *)
Definition directory_refusal : string -> option string :=
  fun path =>
    if String.eqb path "/srv/app/uploads"
    then Some "EISDIR: illegal operation on a directory, unlink '/srv/app/uploads'"
    else None.



(** * Properties *)

(** ** Identifiers and lookups *)

Lemma ObjectId_ext (a b : ObjectId) : toString a = toString b -> a = b.
Proof. destruct a, b; simpl; congruence. Qed.

Lemma id_eqb_eq (a b : ObjectId) :
  String.eqb (toString a) (toString b) = true <-> a = b.
Proof.
  rewrite String.eqb_eq. split; [apply ObjectId_ext | congruence].
Qed.

Lemma id_eqb_refl (a : ObjectId) : String.eqb (toString a) (toString a) = true.
Proof. apply String.eqb_refl. Qed.

Lemma lookup_None (id : ObjectId) (docs : list Product.t) :
  (forall p, In p docs -> Product._id p <> id) -> lookup id docs = None.
Proof.
  induction docs as [|d docs IH]; intros H; simpl; [reflexivity|].
  destruct (String.eqb _ _) eqn:E.
  - apply id_eqb_eq in E. exfalso. apply (H d); [left; reflexivity | exact E].
  - apply IH. intros p Hp. apply H. right. exact Hp.
Qed.

Lemma lookup_Some (id : ObjectId) (docs : list Product.t) (p : Product.t) :
  lookup id docs = Some p -> In p docs /\ Product._id p = id.
Proof.
  induction docs as [|d docs IH]; simpl; [discriminate|].
  destruct (String.eqb _ _) eqn:E; intros H.
  - injection H as <-. apply id_eqb_eq in E. auto.
  - destruct (IH H). auto.
Qed.

Lemma lookup_unique (docs : list Product.t) (p : Product.t) :
  unique_ids docs -> In p docs -> lookup (Product._id p) docs = Some p.
Proof.
  unfold unique_ids.
  induction docs as [|d docs IH]; simpl; intros U Hin; [contradiction|].
  inversion U as [|? ? Hnotin U']; subst.
  destruct Hin as [->|Hin].
  - rewrite id_eqb_refl. reflexivity.
  - destruct (String.eqb _ _) eqn:E.
    + apply id_eqb_eq in E. exfalso. apply Hnotin. rewrite E.
      apply in_map. exact Hin.
    + apply IH; assumption.
Qed.

(** ** Retrieval, update and deletion of a product that is not there *)

Lemma findById_cast (driver_cast : string -> option ObjectId) (text : string)
    (id : ObjectId) (s : St) :
  castObjectId driver_cast text = Some id ->
  findById driver_cast text s
  = (Normal (lookup id (products (world s))),
     {| world := world s; res := res s; log := log s ++ [DbFindById id] |}).
Proof.
  intros C. unfold findById. rewrite C. reflexivity.
Qed.

Lemma findById_no_cast (driver_cast : string -> option ObjectId) (text : string)
    (s : St) :
  castObjectId driver_cast text = None ->
  findById driver_cast text s = (Thrown (cast_error text), s).
Proof.
  intros C. unfold findById. rewrite C. reflexivity.
Qed.

Lemma bind_findById_cast {A : Type} (driver_cast : string -> option ObjectId)
    (text : string) (id : ObjectId) (k : option Product.t -> M A) (s : St) :
  castObjectId driver_cast text = Some id ->
  bind (findById driver_cast text) k s
  = k (lookup id (products (world s)))
      {| world := world s; res := res s; log := log s ++ [DbFindById id] |}.
Proof.
  intros C. unfold bind. rewrite (findById_cast _ _ _ _ C). reflexivity.
Qed.

(** Text of 24 hexadecimal digits in lower case is the identifier it
    spells. *)
Lemma castObjectId_sample (driver_cast : string -> option ObjectId) (id : ObjectId) :
  (List.length (list_ascii_of_string (toString id)) =? 24)%nat = true ->
  forallb is_hex_digit (list_ascii_of_string (toString id)) = true ->
  map Js.lower (list_ascii_of_string (toString id)) = list_ascii_of_string (toString id) ->
  castObjectId driver_cast (toString id) = Some id.
Proof.
  intros Hl Hh Hc. unfold castObjectId. rewrite Hl, Hh. simpl.
  rewrite Hc, string_of_list_ascii_of_string. destruct id; reflexivity.
Qed.

Section NotFound.

Variable cwd : string.
Variable path_join : string -> string -> string.
Variable validate : Product.t -> bool.
Variable driver_cast : string -> option ObjectId.
Variable unlink_refusal : string -> option string.
Variable validation_message : Product.t -> string.

(** C5: when the text of the id denotes an identifier that no stored product
    has, retrieval, update and deletion each throw the error [Product not
    found] under status 404 and leave the collection and the disk as they
    were; when the text denotes no identifier, each throws the cast error
    instead, with no status set and the store not asked, the collection and
    the disk again as they were; when the text denotes the identifier of a
    stored product, retrieval sends that whole record (its reviews with it)
    under status 200. *)
Theorem missing_product_not_found (w : World) (req : Request) :
  (forall id,
      castObjectId driver_cast (params_id req) = Some id ->
      (forall p, In p (products w) -> Product._id p <> id) ->
      run (getProductById driver_cast req) w = not_found id w
      /\ run (updateProduct validate driver_cast validation_message req) w
         = not_found id w
      /\ run (deleteProduct cwd path_join driver_cast unlink_refusal req) w
         = not_found id w)
  /\ (castObjectId driver_cast (params_id req) = None ->
      run (getProductById driver_cast req) w = cast_failed (params_id req) w
      /\ run (updateProduct validate driver_cast validation_message req) w
         = cast_failed (params_id req) w
      /\ run (deleteProduct cwd path_join driver_cast unlink_refusal req) w
         = cast_failed (params_id req) w)
  /\ (forall id p,
        castObjectId driver_cast (params_id req) = Some id ->
        unique_ids (products w) ->
        In p (products w) ->
        Product._id p = id ->
        run (getProductById driver_cast req) w
        = (Normal tt,
           {| world := w;
              res := {| statusCode := 200; sent := Some (JProduct p) |};
              log := [DbFindById id] |})).
Proof.
  split; [|split].
  - intros id C H. apply lookup_None in H.
    unfold run, not_found, getProductById, updateProduct, deleteProduct, bind.
    rewrite (findById_cast _ _ _ _ C). simpl. rewrite H.
    repeat split; reflexivity.
  - intros C.
    unfold run, cast_failed, getProductById, updateProduct, deleteProduct, bind.
    rewrite (findById_no_cast _ _ _ C).
    repeat split; reflexivity.
  - intros id p C U Hin Hid.
    pose proof (lookup_unique _ _ U Hin) as L. rewrite Hid in L.
    unfold run, getProductById, bind.
    rewrite (findById_cast _ _ _ _ C). simpl.
    rewrite L. destruct w; reflexivity.
Qed.

End NotFound.

(** ** Saving and removing documents *)

Lemma lookup_replace (p : Product.t) (docs : list Product.t) (q : Product.t) :
  lookup (Product._id p) docs = Some q ->
  lookup (Product._id p) (replace p docs) = Some p.
Proof.
  induction docs as [|d docs IH]; simpl; [discriminate|].
  destruct (String.eqb _ _) eqn:E; intros H; simpl.
  - rewrite id_eqb_refl. reflexivity.
  - rewrite E. apply IH. exact H.
Qed.

Lemma in_replace (p x : Product.t) (docs : list Product.t) :
  In x (replace p docs) -> x = p \/ In x docs.
Proof.
  induction docs as [|d docs IH]; simpl; [tauto|].
  destruct (String.eqb _ _); simpl; intros [H|H]; auto.
  destruct (IH H); auto.
Qed.

Lemma map_id_replace (p : Product.t) (docs : list Product.t) :
  map Product._id (replace p docs) = map Product._id docs.
Proof.
  induction docs as [|d docs IH]; simpl; [reflexivity|].
  destruct (String.eqb _ _) eqn:E; simpl.
  - apply id_eqb_eq in E. rewrite E. reflexivity.
  - rewrite IH. reflexivity.
Qed.

Lemma in_remove_id (id : ObjectId) (x : Product.t) (docs : list Product.t) :
  In x (remove_id id docs) -> In x docs.
Proof.
  induction docs as [|d docs IH]; simpl; [tauto|].
  destruct (String.eqb _ _); simpl; intros H; auto.
  destruct H; auto.
Qed.

Lemma unique_remove_id (id : ObjectId) (docs : list Product.t) :
  unique_ids docs -> unique_ids (remove_id id docs).
Proof.
  unfold unique_ids.
  induction docs as [|d docs IH]; simpl; intros U; [constructor|].
  inversion U as [|? ? Hn U']; subst.
  destruct (String.eqb _ _); simpl; [exact U'|].
  constructor; [|apply IH; exact U'].
  intros Hin. apply Hn. apply in_map_iff in Hin. destruct Hin as [x [Hx Hin]].
  apply in_map_iff. exists x. split; [exact Hx|]. eapply in_remove_id. exact Hin.
Qed.

Lemma lookup_remove_id (id : ObjectId) (docs : list Product.t) :
  unique_ids docs -> lookup id (remove_id id docs) = None.
Proof.
  unfold unique_ids.
  induction docs as [|d docs IH]; simpl; intros U; [reflexivity|].
  inversion U as [|? ? Hn U']; subst.
  destruct (String.eqb _ _) eqn:E; simpl.
  - apply id_eqb_eq in E. subst id. apply lookup_None.
    intros p Hp Heq. apply Hn. rewrite <- Heq. apply in_map. exact Hp.
  - rewrite E. apply IH. exact U'.
Qed.

Lemma find_user_None (u : ObjectId) (l : list Review.t) :
  (forall r, In r l -> Review.user r <> u) ->
  List.find (fun r => String.eqb (toString (Review.user r)) (toString u)) l = None.
Proof.
  induction l as [|r l IH]; simpl; intros H; [reflexivity|].
  destruct (String.eqb _ _) eqn:E.
  - apply id_eqb_eq in E. exfalso. apply (H r); auto.
  - apply IH. intros r' Hr'. apply H. auto.
Qed.

Lemma find_user_Some (u : ObjectId) (l : list Review.t) :
  (exists r, In r l /\ Review.user r = u) ->
  exists r, List.find (fun r => String.eqb (toString (Review.user r)) (toString u)) l = Some r.
Proof.
  induction l as [|r l IH]; simpl; intros [x [Hin Hx]]; [contradiction|].
  destruct (String.eqb _ _) eqn:E; [eauto|].
  destruct Hin as [->|Hin].
  - subst u. rewrite id_eqb_refl in E. discriminate.
  - apply IH. eauto.
Qed.

Lemma find_user_None_inv (u : ObjectId) (l : list Review.t) :
  List.find (fun r => String.eqb (toString (Review.user r)) (toString u)) l = None ->
  ~ In u (map Review.user l).
Proof.
  intros H Hin. apply in_map_iff in Hin. destruct Hin as [r [Hr Hin]].
  apply (find_none _ _ H) in Hin. simpl in Hin. subst u.
  rewrite id_eqb_refl in Hin. discriminate.
Qed.

(** ** Review creation *)

Section Reviews.

Variable StringToNumber : string -> float.
Variable validate : Product.t -> bool.
Variable driver_cast : string -> option ObjectId.
Variable validation_message : Product.t -> string.

Lemma createProductReview_fresh (w : World) (req : Request) (id : ObjectId)
    (p : Product.t) :
  castObjectId driver_cast (params_id req) = Some id ->
  lookup id (products w) = Some p ->
  List.find
    (fun r => String.eqb (toString (Review.user r)) (toString (User._id (user req))))
    (Product.reviews p) = None ->
  validate (reviewed StringToNumber req p) = true ->
  run (createProductReview StringToNumber validate driver_cast validation_message
         req) w
  = (Normal tt,
     {| world := {| products := replace (reviewed StringToNumber req p) (products w);
                    files := files w |};
        res := {| statusCode := 201; sent := Some (JMessage "Review added") |};
        log := [DbFindById id; DbSave id] |}).
Proof.
  intros C L F V.
  destruct (lookup_Some _ _ _ L) as [_ Hid].
  unfold run, createProductReview, bind at 1. rewrite (findById_cast _ _ _ _ C).
  unfold save, bind, record, get_world, put_world, res_status, res_json, ret; simpl.
  rewrite L, F. simpl.
  match goal with
  | |- context [validate ?x] => change x with (reviewed StringToNumber req p)
  end.
  rewrite V. simpl. rewrite Hid. reflexivity.
Qed.

(** A review that fails validation is not stored. *)
Lemma createProductReview_invalid (w : World) (req : Request) (id : ObjectId)
    (p : Product.t) :
  castObjectId driver_cast (params_id req) = Some id ->
  lookup id (products w) = Some p ->
  List.find
    (fun r => String.eqb (toString (Review.user r)) (toString (User._id (user req))))
    (Product.reviews p) = None ->
  validate (reviewed StringToNumber req p) = false ->
  run (createProductReview StringToNumber validate driver_cast validation_message
         req) w
  = (Thrown (validation_message (reviewed StringToNumber req p)),
     {| world := w;
        res := {| statusCode := 200; sent := None |};
        log := [DbFindById id] |}).
Proof.
  intros C L F V.
  unfold run, createProductReview, bind at 1. rewrite (findById_cast _ _ _ _ C).
  unfold save, bind, record, get_world, put_world, res_status, res_json, throw, ret;
    simpl.
  rewrite L, F. simpl.
  match goal with
  | |- context [validate ?x] => change x with (reviewed StringToNumber req p)
  end.
  rewrite V. reflexivity.
Qed.

Lemma createProductReview_duplicate (w : World) (req : Request) (id : ObjectId)
    (p : Product.t) (r : Review.t) :
  castObjectId driver_cast (params_id req) = Some id ->
  lookup id (products w) = Some p ->
  List.find
    (fun r => String.eqb (toString (Review.user r)) (toString (User._id (user req))))
    (Product.reviews p) = Some r ->
  run (createProductReview StringToNumber validate driver_cast validation_message
         req) w
  = (Thrown "Product already reviewed",
     {| world := w;
        res := {| statusCode := 400; sent := None |};
        log := [DbFindById id] |}).
Proof.
  intros C L F.
  unfold run, createProductReview, bind at 1. rewrite (findById_cast _ _ _ _ C).
  unfold bind, record, get_world, res_status, throw, ret; simpl.
  rewrite L, F. reflexivity.
Qed.

(** C1: when the caller has no review on the product, a review creation
    that succeeds (the reviewed product passes the schema's validation)
    appends one review (display name, numeric rating, comment, caller's
    identity), sets [numReviews] to the new length of the reviews, sets
    [rating] to the mean of all the ratings (their sum divided by their
    count), stores the three changes in one save, and answers with status
    201 and a confirmation. *)
Theorem review_creation_appends (w : World) (req : Request) (id : ObjectId)
    (p : Product.t) :
  castObjectId driver_cast (params_id req) = Some id ->
  lookup id (products w) = Some p ->
  (forall r, In r (Product.reviews p) -> Review.user r <> User._id (user req)) ->
  validate (reviewed StringToNumber req p) = true ->
  exists p' : Product.t,
    run (createProductReview StringToNumber validate driver_cast validation_message
         req) w
    = (Normal tt,
       {| world := {| products := replace p' (products w); files := files w |};
          res := {| statusCode := 201; sent := Some (JMessage "Review added") |};
          log := [DbFindById id; DbSave id] |})
    /\ lookup id (replace p' (products w)) = Some p'
    /\ Product.reviews p' = Product.reviews p ++ [review_from StringToNumber req]
    /\ Product.numReviews p' = Z.of_nat (List.length (Product.reviews p'))
    /\ Product.numReviews p' = Z.of_nat (List.length (Product.reviews p)) + 1
    /\ Product.rating p' = mean_rating (Product.reviews p')
    /\ p' = Product.set_rating (Product.rating p')
              (Product.set_numReviews (Product.numReviews p')
                 (Product.set_reviews (Product.reviews p') p)).
Proof.
  intros C L Hfresh V.
  exists (reviewed StringToNumber req p).
  split;
    [apply createProductReview_fresh;
     [exact C | exact L | apply find_user_None; exact Hfresh | exact V]|].
  destruct (lookup_Some _ _ _ L) as [_ Hid].
  split.
  - rewrite <- Hid.
    change (Product._id p) with (Product._id (reviewed StringToNumber req p)).
    apply lookup_replace with (q := p).
    change (Product._id (reviewed StringToNumber req p)) with (Product._id p).
    rewrite Hid. exact L.
  - simpl. repeat split.
    rewrite length_app. simpl. lia.
Qed.

End Reviews.

(** ** What a request does to the collection *)

(** Splits a handler that starts with [findById] along the cast of the
    request's id. *)
Ltac cast_cases pf req C :=
  unfold handler, run,
    getProductById, updateProduct, deleteProduct, createProductReview;
  unfold bind at 1;
  destruct (castObjectId (p_driver_cast pf) (params_id req)) as [?id|] eqn:C;
  [rewrite (findById_cast _ _ _ _ C) | rewrite (findById_no_cast _ _ _ C)].

Lemma handler_step (pf : Platform) (op : Operation) (req : Request) (w : World) :
  step_products pf req (products w)
    (products (world (snd (run (handler pf op req) w)))).
Proof.
  destruct op as [| | |i| | | | | | |].
  - unfold_handler. split_cases; constructor.
  - unfold_handler. split_cases; constructor.
  - cast_cases pf req C; [|simpl; constructor].
    unfold_handler; simpl. destruct (lookup _ _); simpl; constructor.
  - unfold_handler; simpl. destruct (p_validate pf _); simpl; [|constructor].
    destruct (lookup _ _) eqn:L; simpl; [constructor|].
    apply step_created; [exact L | reflexivity | reflexivity].
  - cast_cases pf req C; [|simpl; constructor].
    unfold_handler; simpl. destruct (lookup _ _) eqn:L; simpl; [|constructor].
    destruct (p_validate pf _); simpl; [|constructor].
    eapply step_updated; [exact L | reflexivity | reflexivity | reflexivity].
  - cast_cases pf req C; [|simpl; constructor].
    unfold_handler; simpl. destruct (lookup _ _) eqn:L; simpl; [|constructor].
    destruct (Js.startsWith _ _); simpl; [|apply step_removed].
    destruct (existsb _ _) eqn:E; simpl; [rewrite E; simpl|apply step_removed].
    destruct (p_unlink_refusal pf _); simpl; [constructor | apply step_removed].
  - destruct (castObjectId (p_driver_cast pf) (params_id req)) as [id|] eqn:C;
      [|cast_cases pf req C'; [congruence|simpl; constructor]].
    destruct (lookup id (products w)) as [p|] eqn:L.
    + destruct (List.find
        (fun r => String.eqb (toString (Review.user r)) (toString (User._id (user req))))
        (Product.reviews p)) as [r|] eqn:F.
      * simpl handler.
        rewrite createProductReview_duplicate with (id := id) (p := p) (r := r);
          [|assumption..].
        simpl. constructor.
      * simpl handler.
        destruct (p_validate pf (reviewed (p_StringToNumber pf) req p)) eqn:V.
        -- rewrite createProductReview_fresh with (id := id) (p := p);
             [|assumption..].
           simpl. eapply step_reviewed; eassumption.
        -- rewrite createProductReview_invalid with (id := id) (p := p);
             [|assumption..].
           simpl. constructor.
    + cast_cases pf req C'; [|congruence].
      unfold_handler; simpl.
      assert (id0 = id) as -> by congruence. rewrite L. simpl. constructor.
  - unfold_handler. split_cases; constructor.
  - unfold_handler; simpl. constructor.
  - unfold_handler; simpl. constructor.
  - unfold_handler; simpl. constructor.
Qed.

Lemma reachable_ind_products (pf : Platform) (P : list Product.t -> Prop) :
  P [] ->
  (forall req docs docs', P docs -> step_products pf req docs docs' -> P docs') ->
  forall w, reachable pf w -> P (products w).
Proof.
  intros H0 Hstep w R. induction R as [fs|w op req R IH]; simpl; [exact H0|].
  eapply Hstep; [exact IH | apply handler_step].
Qed.

Lemma reachable_unique_ids (pf : Platform) (w : World) :
  reachable pf w -> unique_ids (products w).
Proof.
  apply reachable_ind_products; [constructor|].
  intros req docs docs' U S. unfold unique_ids in *.
  destruct S as [|n L _ _|id p p' L Hid _ _|id p L F|id].
  - exact U.
  - rewrite map_app. simpl.
    apply NoDup_app_remove_l with (l := []). simpl.
    apply Permutation_NoDup with (l := Product._id n :: map Product._id docs).
    + apply Permutation_cons_append.
    + constructor; [|exact U].
      intros Hin. apply in_map_iff in Hin. destruct Hin as [x [Hx Hin]].
      apply (lookup_unique _ _ U) in Hin. rewrite Hx in Hin. congruence.
  - rewrite map_id_replace. exact U.
  - rewrite map_id_replace. exact U.
  - apply unique_remove_id. exact U.
Qed.

Lemma reachable_one_review_per_user (pf : Platform) (w : World) :
  reachable pf w -> Forall one_review_per_user (products w).
Proof.
  apply reachable_ind_products; [constructor|].
  intros req docs docs' I S.
  rewrite Forall_forall in I. apply Forall_forall. intros x Hx.
  destruct S as [|n L Hr _|id p p' L _ Hr _|id p L F|id].
  - auto.
  - apply in_app_or in Hx. destruct Hx as [Hx|[<-|[]]]; [auto|].
    unfold one_review_per_user. rewrite Hr. constructor.
  - apply in_replace in Hx. destruct Hx as [->|Hx]; [|auto].
    unfold one_review_per_user. rewrite Hr.
    apply I. apply (lookup_Some _ _ _ L).
  - apply in_replace in Hx. destruct Hx as [->|Hx]; [|auto].
    unfold one_review_per_user. simpl. rewrite map_app. simpl.
    apply Permutation_NoDup
      with (l := User._id (user req) :: map Review.user (Product.reviews p)).
    + apply Permutation_cons_append.
    + constructor; [apply find_user_None_inv; exact F|].
      apply I. apply (lookup_Some _ _ _ L).
  - apply I. eapply in_remove_id. exact Hx.
Qed.

(** The derived count of every reachable product is the number of its
    reviews. *)
Lemma reachable_numReviews (pf : Platform) (w : World) :
  reachable pf w ->
  Forall (fun p => Product.numReviews p = Z.of_nat (List.length (Product.reviews p)))
    (products w).
Proof.
  apply reachable_ind_products; [constructor|].
  intros req docs docs' I S.
  rewrite Forall_forall in I. apply Forall_forall. intros x Hx.
  destruct S as [|n L Hr Hn|id p p' L _ Hr Hn|id p L F|id].
  - auto.
  - apply in_app_or in Hx. destruct Hx as [Hx|[<-|[]]]; [auto|].
    rewrite Hr, Hn. reflexivity.
  - apply in_replace in Hx. destruct Hx as [->|Hx]; [|auto].
    rewrite Hr, Hn. apply I. apply (lookup_Some _ _ _ L).
  - apply in_replace in Hx. destruct Hx as [->|Hx]; [|auto]. reflexivity.
  - apply I. eapply in_remove_id. exact Hx.
Qed.

(** C2: when some review of the product carries the caller's identity,
    review creation throws [Product already reviewed] under status 400 and
    leaves the world (reviews, [numReviews] and [rating] with it) as it was;
    hence no product of a reachable world has two reviews with the same user
    reference. *)
Theorem duplicate_review_rejected (pf : Platform) :
  (forall (w : World) (req : Request) (id : ObjectId) (p : Product.t),
      castObjectId (p_driver_cast pf) (params_id req) = Some id ->
      lookup id (products w) = Some p ->
      (exists r, In r (Product.reviews p) /\ Review.user r = User._id (user req)) ->
      run (createProductReview (p_StringToNumber pf) (p_validate pf)
             (p_driver_cast pf) (p_validation_message pf) req) w
      = (Thrown "Product already reviewed",
         {| world := w;
            res := {| statusCode := 400; sent := None |};
            log := [DbFindById id] |}))
  /\ (forall w : World,
        reachable pf w ->
        forall p, In p (products w) -> NoDup (map Review.user (Product.reviews p))).
Proof.
  split.
  - intros w req id p C L Hdup.
    destruct (find_user_Some _ _ Hdup) as [r F].
    eapply createProductReview_duplicate; eassumption.
  - intros w R p Hin.
    pose proof (reachable_one_review_per_user pf w R) as I.
    rewrite Forall_forall in I. apply I. exact Hin.
Qed.

(** ** Product update *)

Section Update.

Variable validate : Product.t -> bool.
Variable driver_cast : string -> option ObjectId.
Variable validation_message : Product.t -> string.

(** C10: an update that succeeds (the updated product passes the schema's
    validation) stores the ten fields of the request body (name, price,
    description, image, brand, category, countInStock, colors, char, year)
    and leaves the product's identity, reviews, [numReviews], [rating] and
    owner reference as they were; no other stored product changes. *)
Theorem update_keeps_derived_fields (w : World) (req : Request) (id : ObjectId)
    (p : Product.t) :
  castObjectId driver_cast (params_id req) = Some id ->
  lookup id (products w) = Some p ->
  validate (updated (body req) p) = true ->
  exists p' : Product.t,
    run (updateProduct validate driver_cast validation_message req) w
    = (Normal tt,
       {| world := {| products := replace p' (products w); files := files w |};
          res := {| statusCode := 200; sent := Some (JProduct p') |};
          log := [DbFindById id; DbSave id] |})
    /\ lookup id (replace p' (products w)) = Some p'
    /\ (Product._id p' = Product._id p
        /\ Product.reviews p' = Product.reviews p
        /\ Product.numReviews p' = Product.numReviews p
        /\ Product.rating p' = Product.rating p
        /\ Product.user p' = Product.user p)
    /\ (Product.name p' = Body.name (body req)
        /\ Product.price p' = Body.price (body req)
        /\ Product.description p' = Body.description (body req)
        /\ Product.image p' = Body.image (body req)
        /\ Product.brand p' = Body.brand (body req)
        /\ Product.category p' = Body.category (body req)
        /\ Product.countInStock p' = Body.countInStock (body req)
        /\ Product.colors p' = Body.colors (body req)
        /\ Product.char p' = Body.char (body req)
        /\ Product.year p' = Body.year (body req))
    /\ (forall q, In q (replace p' (products w)) -> q = p' \/ In q (products w)).
Proof.
  intros C L V.
  destruct (lookup_Some _ _ _ L) as [_ Hid].
  exists (updated (body req) p). split.
  - unfold run, updateProduct, bind at 1. rewrite (findById_cast _ _ _ _ C).
    unfold_handler; simpl. rewrite L. simpl.
    match goal with
    | |- context [validate ?x] => change x with (updated (body req) p)
    end.
    rewrite V. simpl. rewrite <- Hid. reflexivity.
  - split.
    + rewrite <- Hid.
      change (Product._id p) with (Product._id (updated (body req) p)).
      apply lookup_replace with (q := p). simpl.
      rewrite Hid. exact L.
    + simpl. split; [repeat split|]. split; [repeat split|].
      intros q. apply in_replace.
Qed.

End Update.

(** ** Product deletion *)

Lemma existsb_path (path : string) (fs : list string) :
  existsb (String.eqb path) fs = true <-> In path fs.
Proof.
  rewrite existsb_exists. split.
  - intros [x [Hin E]]. apply String.eqb_eq in E. subst. exact Hin.
  - intros Hin. exists path. split; [exact Hin | apply String.eqb_refl].
Qed.

Lemma remove_path_gone (path : string) (fs : list string) :
  existsb (String.eqb path) (remove_path path fs) = false.
Proof.
  induction fs as [|f fs IH]; simpl; [reflexivity|].
  destruct (String.eqb f path) eqn:E; simpl; [exact IH|].
  rewrite String.eqb_sym, E. exact IH.
Qed.

Section Deletion.

Variable cwd : string.
Variable path_join : string -> string -> string.
Variable driver_cast : string -> option ObjectId.
Variable unlink_refusal : string -> option string.

(** C6: deleting a product whose image path starts with [/uploads] asks the
    disk whether the file is there, unlinks it when it is (and only then),
    and, when the disk does not refuse the unlink, after that deletes the
    record; when the disk refuses the unlink of a path that is there, the
    deletion throws the disk's error and the record stays; deleting a
    product whose image is elsewhere deletes the record and touches no
    file. *)
Theorem delete_cleans_local_image (w : World) (req : Request) (id : ObjectId)
    (p : Product.t) :
  castObjectId driver_cast (params_id req) = Some id ->
  lookup id (products w) = Some p ->
  let filePath := path_join cwd (Product.image p) in
  let removed := remove_id id (products w) in
  let answer := {| statusCode := 200; sent := Some (JMessage "Product removed") |} in
  (Js.startsWith (Product.image p) "/uploads" = true ->
   In filePath (files w) ->
   unlink_refusal filePath = None ->
   run (deleteProduct cwd path_join driver_cast unlink_refusal req) w
   = (Normal tt,
      {| world := {| products := removed; files := remove_path filePath (files w) |};
         res := answer;
         log := [DbFindById id; FsExists filePath; FsUnlink filePath;
                 DbDeleteOne id] |})
   /\ existsb (String.eqb filePath) (remove_path filePath (files w)) = false)
  /\ (forall e,
        Js.startsWith (Product.image p) "/uploads" = true ->
        In filePath (files w) ->
        unlink_refusal filePath = Some e ->
        run (deleteProduct cwd path_join driver_cast unlink_refusal req) w
        = (Thrown e,
           {| world := w;
              res := {| statusCode := 200; sent := None |};
              log := [DbFindById id; FsExists filePath; FsUnlink filePath] |}))
  /\ (Js.startsWith (Product.image p) "/uploads" = true ->
      existsb (String.eqb filePath) (files w) = false ->
      run (deleteProduct cwd path_join driver_cast unlink_refusal req) w
      = (Normal tt,
         {| world := {| products := removed; files := files w |};
            res := answer;
            log := [DbFindById id; FsExists filePath;
                    DbDeleteOne id] |}))
  /\ (Js.startsWith (Product.image p) "/uploads" = false ->
      run (deleteProduct cwd path_join driver_cast unlink_refusal req) w
      = (Normal tt,
         {| world := {| products := removed; files := files w |};
            res := answer;
            log := [DbFindById id; DbDeleteOne id] |}))
  /\ (unique_ids (products w) -> lookup id removed = None).
Proof.
  intros C L filePath removed answer.
  destruct (lookup_Some _ _ _ L) as [_ Hid].
  unfold run, deleteProduct. rewrite !(bind_findById_cast _ _ id _ _ C).
  split; [intros Hp Hin Hr; split | split; [|split; [|split]]].
  - unfold_handler; simpl. rewrite L. simpl. rewrite Hp. simpl.
    fold filePath. apply existsb_path in Hin. rewrite Hin. simpl. rewrite Hin. simpl.
    rewrite Hr. simpl. rewrite Hid. reflexivity.
  - apply remove_path_gone.
  - intros e Hp Hin Hr. unfold_handler; simpl. rewrite L. simpl.
    rewrite Hp. simpl.
    fold filePath. apply existsb_path in Hin. rewrite Hin. simpl. rewrite Hin. simpl.
    rewrite Hr. simpl. destruct w; reflexivity.
  - intros Hp Hn. unfold_handler; simpl. rewrite L. simpl. rewrite Hp. simpl.
    fold filePath. rewrite Hn. simpl. rewrite Hid. reflexivity.
  - intros Hp. unfold_handler; simpl. rewrite L. simpl. rewrite Hp. simpl.
    rewrite Hid. reflexivity.
  - intros U. apply lookup_remove_id. exact U.
Qed.

End Deletion.

(** ** Orders *)

Lemma key_leb_total (a b : Bson.key) :
  Bson.key_leb a b = true \/ Bson.key_leb b a = true.
Proof.
  destruct a as [| |p|], b as [| |q|]; simpl; auto.
  destruct (Qlt_le_dec p q) as [H|H].
  - left. apply Qle_bool_iff. apply Qlt_le_weak. exact H.
  - right. apply Qle_bool_iff. exact H.
Qed.

Lemma key_leb_trans (a b c : Bson.key) :
  Bson.key_leb a b = true -> Bson.key_leb b c = true -> Bson.key_leb a c = true.
Proof.
  destruct a as [| |p|], b as [| |q|], c as [| |r|]; simpl; auto; try discriminate.
  rewrite !Qle_bool_iff. apply Qle_trans.
Qed.

Lemma bson_leb_total (a b : float) : Bson.leb a b = true \/ Bson.leb b a = true.
Proof. apply key_leb_total. Qed.

Lemma bson_leb_trans (a b c : float) :
  Bson.leb a b = true -> Bson.leb b c = true -> Bson.leb a c = true.
Proof. apply key_leb_trans. Qed.

Lemma bson_leb_refl (a : float) : Bson.leb a a = true.
Proof. destruct (bson_leb_total a a); assumption. Qed.

(** The order of the store is the order of the numbers. *)
Example bson_leb_numbers :
  Bson.leb 3 4.5 = true /\ Bson.leb 4.5 3 = false
  /\ Bson.leb (-2) 0 = true /\ Bson.leb 0 (-2) = false
  /\ Bson.leb PrimFloat.nan (-2) = true /\ Bson.leb 0 (-0) = true.
Proof. vm_compute. repeat split. Qed.

Lemma ascii_compare_Eq (a b : ascii) : Ascii.compare a b = Eq <-> a = b.
Proof.
  split; [apply Ascii.compare_eq_iff|].
  intros ->. unfold Ascii.compare. apply N.compare_refl.
Qed.

Lemma string_leb_trans (a b c : string) :
  String.leb a b = true -> String.leb b c = true -> String.leb a c = true.
Proof.
  unfold String.leb. revert b c.
  induction a as [|x a IH]; intros [|y b] [|z c]; simpl; try easy.
  unfold Ascii.compare.
  destruct (N.compare_spec (N_of_ascii x) (N_of_ascii y)) as [E1|L1|G1];
    destruct (N.compare_spec (N_of_ascii y) (N_of_ascii z)) as [E2|L2|G2];
    destruct (N.compare_spec (N_of_ascii x) (N_of_ascii z)) as [E3|L3|G3];
    try easy; try lia.
  apply IH.
Qed.

(** ** Sorting *)

Section Sorting.

Context {A : Type}.
Variable le : A -> A -> bool.

Lemma insert_perm (x : A) (l : list A) : Permutation (Js.insert le x l) (x :: l).
Proof.
  induction l as [|y l IH]; simpl; [reflexivity|].
  destruct (le x y); [reflexivity|].
  rewrite IH. apply perm_swap.
Qed.

Lemma sort_by_perm (l : list A) : Permutation (Js.sort_by le l) l.
Proof.
  induction l as [|x l IH]; simpl; [reflexivity|].
  rewrite insert_perm. constructor. exact IH.
Qed.

Hypothesis le_total : forall a b, le a b = true \/ le b a = true.
Hypothesis le_trans : forall a b c, le a b = true -> le b c = true -> le a c = true.

Lemma insert_sorted (x : A) (l : list A) :
  StronglySorted (fun a b => le a b = true) l ->
  StronglySorted (fun a b => le a b = true) (Js.insert le x l).
Proof.
  induction 1 as [|y l S IH F]; simpl.
  - repeat constructor.
  - destruct (le x y) eqn:E.
    + constructor; [constructor; assumption|].
      constructor; [exact E|].
      eapply Forall_impl; [|exact F]. intros z. apply le_trans. exact E.
    + constructor; [exact IH|].
      assert (Hyx : le y x = true) by (destruct (le_total x y); congruence).
      rewrite Forall_forall. intros z Hz.
      apply (Permutation_in _ (insert_perm x l)) in Hz.
      destruct Hz as [<-|Hz]; [exact Hyx|].
      rewrite Forall_forall in F. apply F. exact Hz.
Qed.

Lemma sort_by_sorted (l : list A) :
  StronglySorted (fun a b => le a b = true) (Js.sort_by le l).
Proof.
  induction l as [|x l IH]; simpl; [constructor|].
  apply insert_sorted. exact IH.
Qed.

End Sorting.

Lemma sorted_app_le {A : Type} (R : A -> A -> Prop) (l1 l2 : list A) :
  StronglySorted R (l1 ++ l2) ->
  forall x y, In x l1 -> In y l2 -> R x y.
Proof.
  induction l1 as [|a l1 IH]; simpl; intros S x y Hx Hy; [contradiction|].
  apply StronglySorted_inv in S. destruct S as [S F].
  destruct Hx as [<-|Hx].
  - rewrite Forall_forall in F. apply F. apply in_or_app. right. exact Hy.
  - eapply IH; eassumption.
Qed.

Lemma sorted_firstn {A : Type} (R : A -> A -> Prop) (n : nat) (l : list A) :
  StronglySorted R l -> StronglySorted R (firstn n l).
Proof.
  intros S. revert n. induction S as [|a l S IH F]; intros [|n]; simpl;
    try constructor.
  - apply IH.
  - rewrite Forall_forall in *. intros x Hx. apply F.
    eapply (In_nth_error) in Hx. destruct Hx as [k Hk].
    apply nth_error_In with (n := k).
    destruct (Nat.lt_ge_cases k n) as [Hlt|Hge].
    + rewrite nth_error_firstn in Hk. apply Nat.ltb_lt in Hlt. rewrite Hlt in Hk. exact Hk.
    + rewrite nth_error_firstn in Hk. apply Nat.ltb_ge in Hge. rewrite Hge in Hk. discriminate.
Qed.

Lemma filter_true {A : Type} (l : list A) : filter (fun _ => true) l = l.
Proof. induction l as [|x l IH]; simpl; [reflexivity | rewrite IH; reflexivity]. Qed.

(** ** Top products *)

Section TopProducts.

Variable regex_engine : string -> option (string -> bool).

(** C7: the top-products operation sends at most three products, in
    descending order of rating, all of them stored products, and no stored
    product left out has a rating above that of a product sent. *)
Theorem top_products_are_the_best (w : World) (req : Request) :
  exists top : list Product.t,
    run (getTopProducts regex_engine req) w
    = (Normal tt,
       {| world := w;
          res := {| statusCode := 200; sent := Some (JProducts top) |};
          log := [DbFind] |})
    /\ (List.length top <= 3)%nat
    /\ StronglySorted
         (fun p q => Bson.leb (Product.rating q) (Product.rating p) = true) top
    /\ (forall p, In p top -> In p (products w))
    /\ (forall p q,
          In p top -> In q (products w) -> ~ In q top ->
          Bson.leb (Product.rating q) (Product.rating p) = true).
Proof.
  set (sorted := Js.sort_by rating_desc (products w)).
  assert (S : StronglySorted (fun p q => rating_desc p q = true) sorted).
  { apply sort_by_sorted; unfold rating_desc.
    - intros a b. apply bson_leb_total.
    - intros a b c Hab Hbc. eapply bson_leb_trans; eassumption. }
  assert (P : Permutation sorted (products w)) by apply sort_by_perm.
  exists (firstn 3 sorted). split; [|split; [|split; [|split]]].
  - unfold_handler; simpl. rewrite filter_true. destruct w; reflexivity.
  - apply firstn_le_length.
  - apply (sorted_firstn _ 3 _ S).
  - intros p Hp. apply (Permutation_in _ P).
    rewrite <- (firstn_skipn 3 sorted). apply in_or_app. left. exact Hp.
  - intros p q Hp Hq Hnot.
    rewrite <- (firstn_skipn 3 sorted) in S.
    apply (sorted_app_le _ _ _ S p q Hp).
    apply (Permutation_in _ (Permutation_sym P)) in Hq.
    rewrite <- (firstn_skipn 3 sorted) in Hq.
    apply in_app_or in Hq. destruct Hq as [Hq|Hq]; [contradiction | exact Hq].
Qed.

End TopProducts.

(** ** Distinct values *)

Section Group.

Context {K : Type}.
Variable eqb : K -> K -> bool.
Hypothesis eqb_spec : forall a b, eqb a b = true <-> a = b.

Lemma group_In (l : list K) (x : K) : In x (group eqb l) <-> In x l.
Proof.
  induction l as [|k l IH]; simpl; [tauto|].
  rewrite filter_In, IH. split.
  - intros [H|[H _]]; auto.
  - intros [H|H]; auto.
    destruct (eqb k x) eqn:E.
    + left. apply eqb_spec. exact E.
    + right. auto.
Qed.

Lemma group_NoDup (l : list K) : NoDup (group eqb l).
Proof.
  induction l as [|k l IH]; simpl; constructor.
  - rewrite filter_In. intros [_ H].
    assert (E : eqb k k = true) by (apply eqb_spec; reflexivity).
    rewrite E in H. discriminate.
  - apply NoDup_filter. exact IH.
Qed.

End Group.

Lemma year_eqb_spec (a b : option Z) : year_eqb a b = true <-> a = b.
Proof.
  destruct a as [x|], b as [y|]; simpl; try (split; congruence).
  rewrite Z.eqb_eq. split; congruence.
Qed.

(** C8: each of the three distinct-value lookups sends the values its field
    takes in the stored products, each once; the brands are in ascending
    lexicographic order; the years hold no null. *)
Theorem distinct_lookups_have_no_duplicates (w : World) (req : Request) :
  (exists brands : list string,
      run (getAllBrands req) w
      = (Normal tt,
         {| world := w;
            res := {| statusCode := 200; sent := Some (JStrings brands) |};
            log := [DbAggregate] |})
      /\ NoDup brands
      /\ StronglySorted (fun a b => String.leb a b = true) brands
      /\ (forall b, In b brands <-> exists p, In p (products w) /\ Product.brand p = b))
  /\ (exists colors : list string,
        run (getAllColors req) w
        = (Normal tt,
           {| world := w;
              res := {| statusCode := 200; sent := Some (JStrings colors) |};
              log := [DbAggregate] |})
        /\ NoDup colors
        /\ (forall c, In c colors
                      <-> exists p, In p (products w) /\ In c (Product.colors p)))
  /\ (exists years : list (option Z),
        run (getAllYears req) w
        = (Normal tt,
           {| world := w;
              res := {| statusCode := 200; sent := Some (JYears years) |};
              log := [DbAggregate] |})
        /\ NoDup years
        /\ ~ In None years
        /\ (forall y : Z,
              In (Some y) years
              <-> exists p, In p (products w) /\ Product.year p = Some y)).
Proof.
  split; [|split].
  - exists (Js.sort (group String.eqb (map Product.brand (products w)))).
    pose proof (sort_by_perm String.leb (group String.eqb (map Product.brand (products w))))
      as P.
    split; [|split; [|split]].
    + unfold_handler; simpl. rewrite map_id. destruct w; reflexivity.
    + apply (Permutation_NoDup (Permutation_sym P)).
      apply group_NoDup. apply String.eqb_eq.
    + apply sort_by_sorted; [apply String.leb_total | apply string_leb_trans].
    + intros b. split.
      * intros H. apply (Permutation_in _ P) in H.
        apply -> (group_In _ String.eqb_eq) in H.
        apply in_map_iff in H. destruct H as [p [E Hin]]. eauto.
      * intros [p [Hin E]]. apply (Permutation_in _ (Permutation_sym P)).
        apply <- (group_In _ String.eqb_eq). rewrite <- E. apply in_map. exact Hin.
  - exists (group String.eqb (unwind_colors (products w))).
    split; [|split].
    + unfold_handler; simpl. rewrite map_id. destruct w; reflexivity.
    + apply group_NoDup. apply String.eqb_eq.
    + intros c. rewrite (group_In _ String.eqb_eq). unfold unwind_colors.
      rewrite in_flat_map. tauto.
  - exists (group year_eqb (map Product.year (match_year_ne_null (products w)))).
    assert (Hin : forall y,
               In y (group year_eqb (map Product.year (match_year_ne_null (products w))))
               <-> exists p, In p (products w) /\ Product.year p = y /\ y <> None).
    { intros y. rewrite (group_In _ year_eqb_spec). rewrite in_map_iff.
      unfold match_year_ne_null. split.
      - intros [p [E Hp]]. apply filter_In in Hp. destruct Hp as [Hp Hy].
        exists p. repeat split; auto. rewrite <- E. destruct (Product.year p); congruence.
      - intros [p [Hp [E Hy]]]. exists p. split; [exact E|].
        apply filter_In. split; [exact Hp|]. rewrite E. destruct y; congruence. }
    split; [|split; [|split]].
    + unfold_handler; simpl. rewrite map_id. destruct w; reflexivity.
    + apply group_NoDup. apply year_eqb_spec.
    + intros H. apply Hin in H. destruct H as [p [_ [_ H]]]. congruence.
    + intros y. rewrite Hin. split.
      * intros [p [Hp [E _]]]. eauto.
      * intros [p [Hp E]]. exists p. repeat split; auto. congruence.
Qed.

(** ** Pagination *)

Lemma firstn_then_firstn {A : Type} (a b : nat) (l : list A) :
  firstn a l ++ firstn b (skipn a l) = firstn (a + b) l.
Proof.
  revert l. induction a as [|a IH]; intros l; simpl; [reflexivity|].
  destruct l as [|x l]; simpl.
  - rewrite firstn_nil. reflexivity.
  - rewrite IH. reflexivity.
Qed.



Lemma chunks_concat {A : Type} (n k : nat) (l : list A) :
  List.concat (map (fun i => firstn n (skipn (n * i) l)) (seq 0 k)) = firstn (n * k) l.
Proof.
  induction k as [|k IH].
  - rewrite Nat.mul_0_r. reflexivity.
  - rewrite seq_S, map_app, List.concat_app, IH. simpl.
    rewrite app_nil_r, firstn_then_firstn, Nat.mul_succ_r. reflexivity.
Qed.

Lemma ceil_div_pos (a b : Z) :
  0 < b ->
  Js.ceil_div a b = Some (Qceiling (inject_Z a / inject_Z b))
  /\ b * (Qceiling (inject_Z a / inject_Z b) - 1) < a <= b * Qceiling (inject_Z a / inject_Z b).
Proof.
  intros Hb. split.
  - unfold Js.ceil_div. destruct (Z.eqb_spec b 0); [lia | reflexivity].
  - destruct b as [|b|b]; try lia.
    assert (E : Qceiling (inject_Z a / inject_Z (Z.pos b)) = - (- a / Z.pos b)).
    { unfold Qceiling, Qfloor, Qdiv, Qinv, Qmult, Qopp, inject_Z. simpl.
      rewrite Z.mul_1_r. reflexivity. }
    rewrite E.
    pose proof (Z.mul_div_le (- a) (Z.pos b) Hb).
    pose proof (Z.mul_succ_div_gt (- a) (Z.pos b) Hb).
    lia.
Qed.

Section Pagination.

Variable env : Env.
Variable regex_engine : string -> option (string -> bool).

Lemma getProducts_run (w : World) (req : Request) (m : Product.t -> bool) :
  matcher regex_engine (keyword_filter req) = Some m ->
  0 <= pageSize env * (pageNumber req - 1) ->
  let matching := filter m (products w) in
  run (getProducts env regex_engine req) w
  = (Normal tt,
     {| world := w;
        res := {| statusCode := 200;
                  sent := Some (JPage
                                  (apply_limit (Some (pageSize env))
                                     (skipn (Z.to_nat (pageSize env * (pageNumber req - 1)))
                                        matching))
                                  (pageNumber req)
                                  (Js.ceil_div (Z.of_nat (List.length matching))
                                     (pageSize env))) |};
        log := [DbCount; DbFind] |}).
Proof.
  intros Hm Hskip matching.
  unfold_handler; simpl. fold (keyword_filter req). rewrite Hm. simpl.
  fold matching.
  destruct (Z.ltb_spec (pageSize env * (pageNumber req - 1)) 0); [lia|].
  destruct w; reflexivity.
Qed.

(** A keyword the store rejects as a pattern fails the request. *)
Lemma getProducts_invalid (w : World) (req : Request) :
  matcher regex_engine (keyword_filter req) = None ->
  run (getProducts env regex_engine req) w
  = (Thrown "Regular expression is invalid",
     {| world := w; res := {| statusCode := 200; sent := None |}; log := [DbCount] |}).
Proof.
  intros Hm. unfold_handler; simpl. fold (keyword_filter req). rewrite Hm.
  destruct w; reflexivity.
Qed.

Lemma listing_page (w : World) (req : Request) (m : Product.t -> bool) (j : nat) :
  matcher regex_engine (keyword_filter req) = Some m ->
  0 < pageSize env ->
  listing env regex_engine w req (Z.of_nat (S j))
  = firstn (Z.to_nat (pageSize env))
      (skipn (Z.to_nat (pageSize env) * j) (filter m (products w))).
Proof.
  intros Hm Hsize. unfold listing.
  assert (Hpage : pageNumber (with_pageNumber (Z.of_nat (S j)) req) = Z.of_nat (S j)).
  { unfold pageNumber, with_pageNumber. simpl query_pageNumber.
    destruct (Z.of_nat (S j)) eqn:E; try reflexivity; lia. }
  rewrite (getProducts_run _ _ m) by (try exact Hm; rewrite Hpage; nia).
  cbv zeta. rewrite Hpage. unfold sent_products, apply_limit. cbn [sent res].
  destruct (Z.eqb_spec (pageSize env) 0); [lia|].
  replace (Z.abs_nat (pageSize env)) with (Z.to_nat (pageSize env)) by lia.
  replace (Z.to_nat (pageSize env * (Z.of_nat (S j) - 1)))
    with (Z.to_nat (pageSize env) * j)%nat by nia.
  reflexivity.
Qed.


Lemma listing_concat (w : World) (req : Request) (m : Product.t -> bool) (pages : Z) :
  matcher regex_engine (keyword_filter req) = Some m ->
  0 < pageSize env ->
  Z.of_nat (List.length (filter m (products w))) <= pageSize env * pages ->
  List.concat (map (fun i => listing env regex_engine w req (Z.of_nat i))
            (seq 1 (Z.to_nat pages)))
  = filter m (products w).
Proof.
  intros Hm Hsize Hcover.
  rewrite <- seq_shift, map_map.
  rewrite (map_ext _ (fun j => firstn (Z.to_nat (pageSize env))
                                (skipn (Z.to_nat (pageSize env) * j)
                                   (filter m (products w)))))
    by (intros j; apply listing_page; assumption).
  rewrite chunks_concat. apply firstn_all2. nia.
Qed.

(** C3: for a keyword filter [m] (the test the store reads the request's
    keyword as), a positive configured page size (10 when the environment
    does not set one) and a page number [p] from 1 on, the catalog listing
    sends the products that match the filter after skipping
    [pageSize * (p - 1)] of them, at most [pageSize] of them, with the page
    count [ceil(count / pageSize)]; the pages 1, 2, ..., in that order, put
    end to end are the matching products, each once. *)
Theorem catalog_pagination (w : World) (req : Request) (m : Product.t -> bool) (p : Z) :
  matcher regex_engine (keyword_filter req) = Some m ->
  0 < pageSize env ->
  1 <= p ->
  query_pageNumber req = Some p ->
  let size := pageSize env in
  let matching := filter m (products w) in
  let count := Z.of_nat (List.length matching) in
  exists (page : list Product.t) (pages : Z),
    run (getProducts env regex_engine req) w
    = (Normal tt,
       {| world := w;
          res := {| statusCode := 200; sent := Some (JPage page p (Some pages)) |};
          log := [DbCount; DbFind] |})
    /\ page = firstn (Z.to_nat size) (skipn (Z.to_nat (size * (p - 1))) matching)
    /\ Z.of_nat (List.length page) <= size
    /\ pages = Qceiling (inject_Z count / inject_Z size)
    /\ size * (pages - 1) < count <= size * pages
    /\ (PAGINATION_LIMIT env = None -> size = 10)
    /\ List.concat (map (fun i => listing env regex_engine w req (Z.of_nat i))
                 (seq 1 (Z.to_nat pages)))
       = matching.
Proof.
  intros Hm Hsize Hp Hq size matching count.
  assert (Hpage : pageNumber req = p).
  { unfold pageNumber. rewrite Hq. destruct p; try reflexivity. lia. }
  destruct (ceil_div_pos count size Hsize) as [Hceil Hbounds].
  exists (firstn (Z.to_nat size) (skipn (Z.to_nat (size * (p - 1))) matching)).
  exists (Qceiling (inject_Z count / inject_Z size)).
  split; [|split; [|split; [|split; [|split; [|split]]]]].
  - rewrite (getProducts_run _ _ m) by (try exact Hm; rewrite Hpage; nia).
    cbv zeta. rewrite Hpage. unfold apply_limit.
    fold matching. fold count. fold size. rewrite Hceil.
    destruct (Z.eqb_spec size 0); [lia|].
    replace (Z.abs_nat size) with (Z.to_nat size) by lia. reflexivity.
  - reflexivity.
  - pose proof (firstn_le_length (Z.to_nat size)
                  (skipn (Z.to_nat (size * (p - 1))) matching)). lia.
  - reflexivity.
  - exact Hbounds.
  - unfold size, pageSize. intros ->. reflexivity.
  - apply listing_concat; [exact Hm | exact Hsize|]. fold matching. fold count. lia.
Qed.

End Pagination.

(** ** Keyword patterns *)










Section Keyword.

Variable env : Env.
Variable regex_engine : string -> option (string -> bool).



End Keyword.

(** ** Listing by category *)

Lemma bson_min_le (a b : float) :
  Bson.leb (bson_min a b) a = true /\ Bson.leb (bson_min a b) b = true.
Proof.
  unfold bson_min. destruct (Bson.leb a b) eqn:E.
  - split; [apply bson_leb_refl | exact E].
  - split; [|apply bson_leb_refl].
    destruct (bson_leb_total a b); congruence.
Qed.

Lemma bson_max_ge (a b : float) :
  Bson.leb a (bson_max a b) = true /\ Bson.leb b (bson_max a b) = true.
Proof.
  unfold bson_max. destruct (Bson.leb a b) eqn:E.
  - split; [exact E | apply bson_leb_refl].
  - split; [apply bson_leb_refl|].
    destruct (bson_leb_total a b); congruence.
Qed.

Lemma fold_min_spec (l : list float) (a : float) :
  In (fold_left bson_min l a) (a :: l)
  /\ forall x, In x (a :: l) -> Bson.leb (fold_left bson_min l a) x = true.
Proof.
  revert a. induction l as [|y l IH]; intros a; simpl.
  - split; [auto|]. intros x [<-|[]]. apply bson_leb_refl.
  - destruct (IH (bson_min a y)) as [Hin Hle]. split.
    + destruct Hin as [H|H]; [|auto].
      rewrite <- H. unfold bson_min. destruct (Bson.leb a y); auto.
    + assert (Hm : Bson.leb (fold_left bson_min l (bson_min a y)) (bson_min a y) = true)
        by (apply Hle; left; reflexivity).
      destruct (bson_min_le a y) as [Ha Hy].
      intros x [<-|[<-|Hx]].
      * eapply bson_leb_trans; eassumption.
      * eapply bson_leb_trans; eassumption.
      * apply Hle. right. exact Hx.
Qed.

Lemma fold_max_spec (l : list float) (a : float) :
  In (fold_left bson_max l a) (a :: l)
  /\ forall x, In x (a :: l) -> Bson.leb x (fold_left bson_max l a) = true.
Proof.
  revert a. induction l as [|y l IH]; intros a; simpl.
  - split; [auto|]. intros x [<-|[]]. apply bson_leb_refl.
  - destruct (IH (bson_max a y)) as [Hin Hle]. split.
    + destruct Hin as [H|H]; [|auto].
      rewrite <- H. unfold bson_max. destruct (Bson.leb a y); auto.
    + assert (Hm : Bson.leb (bson_max a y) (fold_left bson_max l (bson_max a y)) = true)
        by (apply Hle; left; reflexivity).
      destruct (bson_max_ge a y) as [Ha Hy].
      intros x [<-|[<-|Hx]].
      * eapply bson_leb_trans; eassumption.
      * eapply bson_leb_trans; eassumption.
      * apply Hle. right. exact Hx.
Qed.

Section Category.

Variable env : Env.
Variable regex_engine : string -> option (string -> bool).

Lemma category_matcher (req : Request) :
  matcher regex_engine (category_filter req) = Some (in_category req)
  \/ (params_category req = ""
      /\ matcher regex_engine (category_filter req) = Some (fun _ => true)).
Proof.
  unfold category_filter, in_category.
  destruct (String.eqb_spec (params_category req) ""); simpl; auto.
Qed.

Lemma filter_in_category (req : Request) (docs : list Product.t) :
  params_category req = "" ->
  filter (fun _ => true) docs = filter (in_category req) docs.
Proof.
  intros E. apply filter_ext. intros p. unfold in_category. rewrite E. reflexivity.
Qed.

Lemma getProductsByCategory_run (w : World) (req : Request) :
  0 <= pageSize env * (pageNumber req - 1) ->
  let matching := filter (in_category req) (products w) in
  let page :=
    apply_limit (Some (pageSize env))
      (skipn (Z.to_nat (pageSize env * (pageNumber req - 1))) matching) in
  let range := group_price_range matching in
  run (getProductsByCategory env regex_engine req) w
  = (Normal tt,
     {| world := w;
        res := {| statusCode := if (List.length page =? 0)%nat then 404 else 200;
                  sent := Some (JCategoryPage page (params_category req) (pageNumber req)
                                  (Js.ceil_div (Z.of_nat (List.length matching))
                                     (pageSize env))
                                  (match range with
                                   | r :: _ => Some (minPrice r)
                                   | [] => None
                                   end)
                                  (match range with
                                   | r :: _ => Some (maxPrice r)
                                   | [] => None
                                   end)) |};
        log := [DbAggregate; DbCount; DbFind] |}).
Proof.
  intros Hskip matching page range.
  unfold_handler; simpl. fold (category_filter req).
  destruct (category_matcher req) as [Hm|[E Hm]]; rewrite Hm; simpl;
    try rewrite (filter_in_category req _ E);
    fold matching;
    (destruct (Z.ltb_spec (pageSize env * (pageNumber req - 1)) 0); [lia|]);
    simpl; fold range; unfold page, apply_limit;
    (destruct (pageSize env =? 0);
     (destruct (List.length _ =? 0)%nat; destruct w; reflexivity)).
Qed.

(** C4, as the code has it: a category-scoped listing whose skip the store
    accepts sends, with the page, the least and the greatest price among all
    the products of the category, null when there is none; the status is 404
    exactly when the page sent is empty (as it is when no product matches),
    and the body goes out under either status. *)
Theorem category_listing_price_range (w : World) (req : Request) :
  0 <= pageSize env * (pageNumber req - 1) ->
  let matching := filter (in_category req) (products w) in
  exists (page : list Product.t) (pages : option Z) (lo hi : option float) (status : Z),
    run (getProductsByCategory env regex_engine req) w
    = (Normal tt,
       {| world := w;
          res := {| statusCode := status;
                    sent := Some (JCategoryPage page (params_category req)
                                    (pageNumber req) pages lo hi) |};
          log := [DbAggregate; DbCount; DbFind] |})
    /\ page = apply_limit (Some (pageSize env))
                (skipn (Z.to_nat (pageSize env * (pageNumber req - 1))) matching)
    /\ (params_category req <> "" ->
        forall p, In p matching
                  <-> In p (products w) /\ Product.category p = params_category req)
    /\ (matching = [] -> lo = None /\ hi = None)
    /\ (matching <> [] ->
        exists a b,
          lo = Some a /\ hi = Some b
          /\ In a (map Product.price matching)
          /\ In b (map Product.price matching)
          /\ forall q, In q matching ->
                       Bson.leb a (Product.price q) = true
                       /\ Bson.leb (Product.price q) b = true)
    /\ (status = 404 <-> page = [])
    /\ (status = 200 <-> page <> [])
    /\ (matching = [] -> status = 404).
Proof.
  intros Hskip matching.
  pose proof (getProductsByCategory_run w req Hskip) as R. cbv zeta in R.
  fold matching in R.
  set (page := apply_limit (Some (pageSize env))
                 (skipn (Z.to_nat (pageSize env * (pageNumber req - 1))) matching)) in *.
  eexists page, _, _, _, _.
  split; [exact R|]. split; [reflexivity|].
  split; [|split; [|split; [|split; [|split]]]].
  - intros Hne p. unfold matching, in_category.
    destruct (String.eqb_spec (params_category req) ""); [contradiction|].
    rewrite filter_In. rewrite String.eqb_eq. tauto.
  - intros ->. simpl. auto.
  - intros Hne. destruct matching as [|p0 rest] eqn:E; [contradiction|].
    simpl group_price_range. cbv iota.
    destruct (fold_min_spec (map Product.price rest) (Product.price p0)) as [Hin1 Hle1].
    destruct (fold_max_spec (map Product.price rest) (Product.price p0)) as [Hin2 Hle2].
    eexists _, _. split; [reflexivity|]. split; [reflexivity|].
    split; [exact Hin1|]. split; [exact Hin2|].
    intros q Hq. split.
    + apply Hle1. apply (in_map Product.price) in Hq. exact Hq.
    + apply Hle2. apply (in_map Product.price) in Hq. exact Hq.
  - destruct page; simpl; split; congruence.
  - destruct page; simpl; split; congruence.
  - intros E. unfold page. rewrite E. unfold apply_limit.
    rewrite skipn_nil. destruct (pageSize env =? 0); [|rewrite firstn_nil]; reflexivity.
Qed.

End Category.

(** * Worked instances *)

(** The specification's example: a product reviewed with 4, then with 2 by
    another user, has two reviews and the rating 3. *)
Lemma review_creation_appends_witness :
  castObjectId no_driver_cast
    (params_id (sample_request (oid "02") bob (sample_body (Js.Num 2) "meh")))
  = Some (oid "02")
  /\ lookup (oid "02") (products shop) = Some gadget
  /\ exists p' : Product.t,
       run (createProductReview no_number any_product no_driver_cast invalid_product
              (sample_request (oid "02") bob (sample_body (Js.Num 2) "meh"))) shop
       = (Normal tt,
          {| world := {| products := replace p' (products shop); files := files shop |};
             res := {| statusCode := 201; sent := Some (JMessage "Review added") |};
             log := [DbFindById (oid "02"); DbSave (oid "02")] |})
       /\ Product.reviews p' = [review_of alice 4%float "ok"; review_of bob 2%float "meh"]
       /\ Product.numReviews p' = 2
       /\ Product.rating p' = 3%float.
Proof.
  split; [reflexivity|]. split; [reflexivity|].
  destruct (review_creation_appends no_number any_product no_driver_cast
              invalid_product shop
              (sample_request (oid "02") bob (sample_body (Js.Num 2) "meh"))
              (oid "02") gadget)
    as [p' [Hrun [_ [Hrev [Hnum [_ [Hrat _]]]]]]].
  - reflexivity.
  - reflexivity.
  - intros r [<-|[]] H. vm_compute in H. discriminate H.
  - reflexivity.
  - exists p'. split; [exact Hrun|]. split; [exact Hrev|]. split.
    + rewrite Hnum, Hrev. reflexivity.
    + rewrite Hrat, Hrev. reflexivity.
Defined.

Lemma duplicate_review_rejected_witness :
  run (createProductReview no_number any_product no_driver_cast invalid_product
         (sample_request (oid "02") alice (sample_body (Js.Num 5) "again"))) shop
  = (Thrown "Product already reviewed",
     {| world := shop;
        res := {| statusCode := 400; sent := None |};
        log := [DbFindById (oid "02")] |})
  /\ exists p, In p (products reviewed_once)
               /\ List.length (Product.reviews p) = 1%nat
               /\ NoDup (map Review.user (Product.reviews p)).
Proof.
  destruct (duplicate_review_rejected sample_platform) as [A B]. split.
  - apply (A shop (sample_request (oid "02") alice (sample_body (Js.Num 5) "again"))
             (oid "02") gadget).
    + reflexivity.
    + reflexivity.
    + exists (review_of alice 4%float "ok"). split; [left|]; reflexivity.
  - assert (R : reachable sample_platform reviewed_once)
      by (unfold reviewed_once; apply reach_step, reach_step, reach_empty).
    destruct (products reviewed_once) as [|p rest] eqn:E; [discriminate E|].
    exists p. split; [left; reflexivity|]. split.
    + vm_compute in E. injection E as <- _. reflexivity.
    + apply (B reviewed_once R). rewrite E. left. reflexivity.
Defined.

(** The id text [abc] denotes no identifier and no stored product has it,
    yet retrieval, update and deletion do not throw [Product not found]
    under status 404: each throws the cast error, and no status is set. *)
Lemma unparsable_id_counterexample :
  forallb (fun p => negb (String.eqb (toString (Product._id p)) (params_id unparsable_request)))
    (products shop) = true
  /\ castObjectId no_driver_cast (params_id unparsable_request) = None
  /\ run (getProductById no_driver_cast unparsable_request) shop
     = (Thrown (cast_error "abc"),
        {| world := shop;
           res := {| statusCode := 200; sent := None |};
           log := [] |})
  /\ run (updateProduct any_product no_driver_cast invalid_product unparsable_request) shop
     = cast_failed "abc" shop
  /\ run (deleteProduct "/srv/app" concat_paths no_driver_cast no_refusal
            unparsable_request) shop
     = cast_failed "abc" shop
  /\ String.eqb (cast_error "abc") "Product not found" = false.
Proof. repeat split; vm_compute; reflexivity. Qed.

Lemma missing_product_not_found_witness :
  (run (getProductById no_driver_cast
          (sample_request (oid "99") alice (sample_body Js.Undefined ""))) shop
   = not_found (oid "99") shop
   /\ run (updateProduct any_product no_driver_cast invalid_product
             (sample_request (oid "99") alice (sample_body Js.Undefined ""))) shop
      = not_found (oid "99") shop
   /\ run (deleteProduct "/srv/app" concat_paths no_driver_cast no_refusal
             (sample_request (oid "99") alice (sample_body Js.Undefined ""))) shop
      = not_found (oid "99") shop)
  /\ (run (getProductById no_driver_cast unparsable_request) shop
      = cast_failed "abc" shop
      /\ run (updateProduct any_product no_driver_cast invalid_product
                unparsable_request) shop
         = cast_failed "abc" shop
      /\ run (deleteProduct "/srv/app" concat_paths no_driver_cast no_refusal
                unparsable_request) shop
         = cast_failed "abc" shop)
  /\ run (getProductById no_driver_cast
            (sample_request (oid "03") alice (sample_body Js.Undefined ""))) shop
     = (Normal tt,
        {| world := shop;
           res := {| statusCode := 200; sent := Some (JProduct gizmo) |};
           log := [DbFindById (oid "03")] |}).
Proof.
  split; [|split].
  - apply (proj1 (missing_product_not_found "/srv/app" concat_paths any_product
                    no_driver_cast no_refusal invalid_product shop
                    (sample_request (oid "99") alice (sample_body Js.Undefined "")))
             (oid "99")).
    + reflexivity.
    + intros p [<-|[<-|[<-|[<-|[]]]]]; discriminate.
  - apply (proj1 (proj2 (missing_product_not_found "/srv/app" concat_paths any_product
                           no_driver_cast no_refusal invalid_product shop
                           unparsable_request))).
    reflexivity.
  - apply (proj2 (proj2 (missing_product_not_found "/srv/app" concat_paths any_product
                           no_driver_cast no_refusal invalid_product shop
                           (sample_request (oid "03") alice
                              (sample_body Js.Undefined ""))))
             (oid "03") gizmo).
    + reflexivity.
    + unfold unique_ids. distinct_ids.
    + simpl. auto.
    + reflexivity.
Defined.

Lemma delete_cleans_local_image_witness :
  run (deleteProduct "/srv/app" concat_paths no_driver_cast no_refusal
         (sample_request (oid "01") alice (sample_body Js.Undefined ""))) shop
  = (Normal tt,
     {| world := {| products := [gadget; gizmo; doohickey]; files := [] |};
        res := {| statusCode := 200; sent := Some (JMessage "Product removed") |};
        log := [DbFindById (oid "01"); FsExists "/srv/app/uploads/widget.jpg";
                FsUnlink "/srv/app/uploads/widget.jpg"; DbDeleteOne (oid "01")] |})
  /\ run (deleteProduct "/srv/app" concat_paths no_driver_cast directory_refusal
            (sample_request (oid "06") alice (sample_body Js.Undefined ""))) depot
     = (Thrown "EISDIR: illegal operation on a directory, unlink '/srv/app/uploads'",
        {| world := depot;
           res := {| statusCode := 200; sent := None |};
           log := [DbFindById (oid "06"); FsExists "/srv/app/uploads";
                   FsUnlink "/srv/app/uploads"] |})
  /\ run (deleteProduct "/srv/app" concat_paths no_driver_cast no_refusal
            (sample_request (oid "03") alice (sample_body Js.Undefined ""))) shop
     = (Normal tt,
        {| world := {| products := [widget; gadget; doohickey]; files := files shop |};
           res := {| statusCode := 200; sent := Some (JMessage "Product removed") |};
           log := [DbFindById (oid "03"); FsExists "/srv/app/uploads/gizmo.jpg";
                   DbDeleteOne (oid "03")] |})
  /\ run (deleteProduct "/srv/app" concat_paths no_driver_cast no_refusal
            (sample_request (oid "02") alice (sample_body Js.Undefined ""))) shop
     = (Normal tt,
        {| world := {| products := [widget; gizmo; doohickey]; files := files shop |};
           res := {| statusCode := 200; sent := Some (JMessage "Product removed") |};
           log := [DbFindById (oid "02"); DbDeleteOne (oid "02")] |}).
Proof.
  split; [|split; [|split]].
  - apply (delete_cleans_local_image "/srv/app" concat_paths no_driver_cast no_refusal
             shop (sample_request (oid "01") alice (sample_body Js.Undefined ""))
             (oid "01") widget);
      [reflexivity | reflexivity | reflexivity | simpl; auto | reflexivity].
  - apply (delete_cleans_local_image "/srv/app" concat_paths no_driver_cast
             directory_refusal depot
             (sample_request (oid "06") alice (sample_body Js.Undefined ""))
             (oid "06") folder);
      [reflexivity | reflexivity | reflexivity | simpl; auto | reflexivity].
  - apply (delete_cleans_local_image "/srv/app" concat_paths no_driver_cast no_refusal
             shop (sample_request (oid "03") alice (sample_body Js.Undefined ""))
             (oid "03") gizmo);
      reflexivity.
  - apply (delete_cleans_local_image "/srv/app" concat_paths no_driver_cast no_refusal
             shop (sample_request (oid "02") alice (sample_body Js.Undefined ""))
             (oid "02") gadget);
      reflexivity.
Defined.

Lemma top_products_are_the_best_witness :
  exists top : list Product.t,
    run (getTopProducts no_engine (search_request None None)) shop
    = (Normal tt,
       {| world := shop;
          res := {| statusCode := 200; sent := Some (JProducts top) |};
          log := [DbFind] |})
    /\ top = [doohickey; gadget; gizmo]
    /\ Bson.leb (Product.rating widget) (Product.rating gizmo) = true.
Proof.
  destruct (top_products_are_the_best no_engine shop (search_request None None))
    as [top [Hrun [_ [_ [_ Hbest]]]]].
  assert (Htop : top = [doohickey; gadget; gizmo]).
  { pose proof Hrun as E. vm_compute in E. injection E as <-. reflexivity. }
  exists top. split; [exact Hrun|]. split; [exact Htop|].
  apply Hbest.
  - rewrite Htop. simpl. auto.
  - simpl. auto.
  - rewrite Htop. simpl. intuition discriminate.
Defined.

Lemma update_keeps_derived_fields_witness :
  exists p' : Product.t,
    run (updateProduct any_product no_driver_cast invalid_product
           (sample_request (oid "03") alice (sample_body Js.Undefined ""))) shop
    = (Normal tt,
       {| world := {| products := replace p' (products shop); files := files shop |};
          res := {| statusCode := 200; sent := Some (JProduct p') |};
          log := [DbFindById (oid "03"); DbSave (oid "03")] |})
    /\ Product.name p' = "Gadget"
    /\ Product.reviews p' = [review_of bob 3%float "fine"]
    /\ Product.numReviews p' = 1
    /\ Product.rating p' = 3%float.
Proof.
  destruct (update_keeps_derived_fields any_product no_driver_cast invalid_product
              shop (sample_request (oid "03") alice (sample_body Js.Undefined ""))
              (oid "03") gizmo)
    as [p' [Hrun [_ [[_ [Hrev [Hnum [Hrat _]]]] [[Hname _] _]]]]].
  - reflexivity.
  - reflexivity.
  - reflexivity.
  - exists p'. split; [exact Hrun|]. split; [exact Hname|].
    split; [exact Hrev|]. split; [exact Hnum | exact Hrat].
Defined.

Lemma catalog_pagination_witness :
  0 < pageSize small_pages
  /\ exists (page : list Product.t) (pages : Z),
       run (getProducts small_pages no_engine (search_request None (Some 2))) shop
       = (Normal tt,
          {| world := shop;
             res := {| statusCode := 200; sent := Some (JPage page 2 (Some pages)) |};
             log := [DbCount; DbFind] |})
       /\ page = [gizmo; doohickey]
       /\ pages = 2
       /\ List.concat
            (map (fun i => listing small_pages no_engine shop
                             (search_request None (Some 2)) (Z.of_nat i))
               (seq 1 2))
          = [widget; gadget; gizmo; doohickey].
Proof.
  split; [reflexivity|].
  destruct (catalog_pagination small_pages no_engine shop (search_request None (Some 2))
              (fun _ => true) 2)
    as [page [pages [Hrun [Hpage [_ [Hpages [_ [_ Hcat]]]]]]]].
  - reflexivity.
  - reflexivity.
  - lia.
  - reflexivity.
  - exists page, pages. split; [exact Hrun|].
    split; [rewrite Hpage; reflexivity|].
    split; [rewrite Hpages; reflexivity|].
    rewrite Hpages in Hcat. exact Hcat.
Defined.

(** With one page of three tools, page 2 of the category is empty and goes
    out under status 404, although three products match the category. *)
Lemma category_status_counterexample :
  filter (in_category (search_request None (Some 2))) (products shop)
  = [widget; gadget; doohickey]
  /\ run (getProductsByCategory no_env no_engine (search_request None (Some 2))) shop
     = (Normal tt,
        {| world := shop;
           res := {| statusCode := 404;
                     sent := Some (JCategoryPage [] "tools" 2 (Some 1)
                                     (Some 9.5%float) (Some 20%float)) |};
           log := [DbAggregate; DbCount; DbFind] |}).
Proof. split; vm_compute; reflexivity. Qed.

Lemma category_listing_price_range_witness :
  0 <= pageSize no_env * (pageNumber (search_request None None) - 1)
  /\ exists (page : list Product.t) (pages : option Z) (lo hi : option float) (status : Z),
       run (getProductsByCategory no_env no_engine (search_request None None)) shop
       = (Normal tt,
          {| world := shop;
             res := {| statusCode := status;
                       sent := Some (JCategoryPage page "tools" 1 pages lo hi) |};
             log := [DbAggregate; DbCount; DbFind] |})
       /\ page = [widget; gadget; doohickey]
       /\ lo = Some 9.5%float
       /\ hi = Some 20%float
       /\ status = 200.
Proof.
  split; [vm_compute; discriminate|].
  destruct (category_listing_price_range no_env no_engine shop (search_request None None))
    as [page [pages [lo [hi [status [Hrun _]]]]]].
  - vm_compute. discriminate.
  - exists page, pages, lo, hi, status. split; [exact Hrun|].
    pose proof Hrun as E. vm_compute in E.
    injection E as E1 E2 E3 E4 E5.
    subst. repeat split.
Defined.



(** The brands of the sample collection. *)
Example brands_sample :
  sent (res (snd (run (getAllBrands (search_request None None)) shop)))
  = Some (JStrings ["Acme"; "Bolt"; "Zed"]).
Proof. vm_compute. reflexivity. Qed.

(** The specification's end-to-end example: a product is created, Bob rates
    it 4, Bob's second review is refused, Alice rates it 2. *)
Example end_to_end :
  map (fun p => (Product.numReviews p, Product.rating p)) (products reviewed_once)
  = [(1, 4%float)]
  /\ run (handler sample_platform OpCreateProductReview
            (sample_request (oid "09") bob (sample_body (Js.Num 5) "again")))
       reviewed_once
     = (Thrown "Product already reviewed",
        {| world := reviewed_once;
           res := {| statusCode := 400; sent := None |};
           log := [DbFindById (oid "09")] |})
  /\ map (fun p => (Product.numReviews p, Product.rating p))
       (products
          (world (snd (run (handler sample_platform OpCreateProductReview
                              (sample_request (oid "09") alice
                                 (sample_body (Js.Num 2) "meh")))
                         reviewed_once))))
     = [(2, 3%float)].
Proof. vm_compute. repeat split. Qed.

(** * Further properties of the handlers *)

(** ** Creation *)


Lemma lookup_replace_other (p : Product.t) (id : ObjectId) (docs : list Product.t) :
  Product._id p <> id ->
  lookup id (replace p docs) = lookup id docs.
Proof.
  intros Hne. induction docs as [|d docs IH]; simpl; [reflexivity|].
  destruct (String.eqb (toString (Product._id d)) (toString (Product._id p))) eqn:E; simpl.
  - apply id_eqb_eq in E.
    destruct (String.eqb (toString (Product._id p)) (toString id)) eqn:E1;
      [apply id_eqb_eq in E1; contradiction|].
    destruct (String.eqb (toString (Product._id d)) (toString id)) eqn:E2;
      [apply id_eqb_eq in E2; congruence | reflexivity].
  - destruct (String.eqb (toString (Product._id d)) (toString id)); [reflexivity | exact IH].
Qed.

Section Creation.

Variable StringToNumber : string -> float.
Variable validate : Product.t -> bool.
Variable driver_cast : string -> option ObjectId.
Variable validation_message : Product.t -> string.


(** X2: when validation rejects the document to save, the handler throws
    the validation error before anything is written or sent: the world is as
    it was, no body has gone out and the status is still the initial 200.
    This holds of creation in every world, of the update of a stored product,
    and of the review of a stored product the caller has not reviewed. *)
Theorem rejected_save_writes_nothing (w : World) (oid : ObjectId) (req : Request) :
  (validate (created oid req) = false ->
   run (createProduct validate validation_message oid req) w
   = (Thrown (validation_message (created oid req)),
      {| world := w; res := {| statusCode := 200; sent := None |}; log := [] |}))
  /\ (forall id p,
        castObjectId driver_cast (params_id req) = Some id ->
        lookup id (products w) = Some p ->
        validate (updated (body req) p) = false ->
        run (updateProduct validate driver_cast validation_message req) w
        = (Thrown (validation_message (updated (body req) p)),
           {| world := w;
              res := {| statusCode := 200; sent := None |};
              log := [DbFindById id] |}))
  /\ (forall id p,
        castObjectId driver_cast (params_id req) = Some id ->
        lookup id (products w) = Some p ->
        (forall r, In r (Product.reviews p) -> Review.user r <> User._id (user req)) ->
        validate (reviewed StringToNumber req p) = false ->
        run (createProductReview StringToNumber validate driver_cast
               validation_message req) w
        = (Thrown (validation_message (reviewed StringToNumber req p)),
           {| world := w;
              res := {| statusCode := 200; sent := None |};
              log := [DbFindById id] |})).
Proof.
  split; [|split].
  - intros V. unfold_handler; simpl. fold (created oid req). rewrite V. reflexivity.
  - intros id p C L V.
    unfold run, updateProduct. rewrite (bind_findById_cast _ _ id _ _ C).
    unfold_handler; simpl. rewrite L. simpl.
    match goal with
    | |- context [validate ?x] => change x with (updated (body req) p)
    end.
    rewrite V. reflexivity.
  - intros id p C L Hfresh V.
    apply createProductReview_invalid with (p := p);
      [exact C | exact L | apply find_user_None; exact Hfresh | exact V].
Qed.

(** X3: review creation for id text that denotes an identifier no stored
    product has sets status 404 and throws [Product not found], and for id
    text that denotes no identifier throws the cast error with no status
    set; in both cases whatever the rating and the comment, and the world is
    left as it was. *)
Theorem review_of_missing_product (w : World) (req : Request) :
  (forall id,
      castObjectId driver_cast (params_id req) = Some id ->
      (forall p, In p (products w) -> Product._id p <> id) ->
      run (createProductReview StringToNumber validate driver_cast
             validation_message req) w
      = not_found id w)
  /\ (castObjectId driver_cast (params_id req) = None ->
      run (createProductReview StringToNumber validate driver_cast
             validation_message req) w
      = cast_failed (params_id req) w).
Proof.
  split.
  - intros id C H. apply lookup_None in H.
    unfold run, createProductReview, bind at 1. rewrite (findById_cast _ _ _ _ C).
    unfold_handler; simpl. rewrite H. reflexivity.
  - intros C.
    unfold run, createProductReview, bind at 1. rewrite (findById_no_cast _ _ _ C).
    reflexivity.
Qed.

(** X4: after a user's review of a product is stored, every further review
    request of that user for that product, whatever its rating and comment,
    is refused with status 400 and [Product already reviewed], and changes
    nothing. *)
Theorem second_review_refused (w : World) (req req2 : Request) (id : ObjectId)
    (p : Product.t) :
  castObjectId driver_cast (params_id req) = Some id ->
  lookup id (products w) = Some p ->
  (forall r, In r (Product.reviews p) -> Review.user r <> User._id (user req)) ->
  validate (reviewed StringToNumber req p) = true ->
  params_id req2 = params_id req ->
  User._id (user req2) = User._id (user req) ->
  let w' := world (snd (run (createProductReview StringToNumber validate driver_cast
                                validation_message req) w)) in
  run (createProductReview StringToNumber validate driver_cast validation_message
         req2) w'
  = (Thrown "Product already reviewed",
     {| world := w';
        res := {| statusCode := 400; sent := None |};
        log := [DbFindById id] |}).
Proof.
  intros C L Hfresh V Hid Hu w'.
  assert (F := find_user_None _ _ Hfresh).
  unfold w'.
  rewrite createProductReview_fresh with (w := w) (req := req) (id := id) (p := p);
    [|assumption..].
  simpl.
  destruct (lookup_Some _ _ _ L) as [_ Hp].
  assert (C2 : castObjectId driver_cast (params_id req2) = Some id)
    by (rewrite Hid; exact C).
  assert (L' : lookup id
                 (replace (reviewed StringToNumber req p) (products w))
               = Some (reviewed StringToNumber req p)).
  { rewrite <- Hp.
    change (Product._id p) with (Product._id (reviewed StringToNumber req p)).
    apply lookup_replace with (q := p). simpl. rewrite Hp. exact L. }
  destruct (find_user_Some (User._id (user req2))
              (Product.reviews (reviewed StringToNumber req p))) as [r Fr].
  { exists (review_from StringToNumber req). split.
    - simpl. apply in_or_app. right. left. reflexivity.
    - simpl. symmetry. exact Hu. }
  apply createProductReview_duplicate
    with (p := reviewed StringToNumber req p) (r := r);
    [exact C2 | exact L' | exact Fr].
Qed.

(** X5: a stored review changes one product only: the disk, the order and
    the identifiers of the collection and every other product are as they
    were, and the reviewed product keeps its catalogue fields and its
    owner. *)
Theorem review_changes_one_product (w : World) (req : Request) (id : ObjectId)
    (p : Product.t) :
  castObjectId driver_cast (params_id req) = Some id ->
  lookup id (products w) = Some p ->
  (forall r, In r (Product.reviews p) -> Review.user r <> User._id (user req)) ->
  validate (reviewed StringToNumber req p) = true ->
  let w' := world (snd (run (createProductReview StringToNumber validate driver_cast
                                validation_message req) w)) in
  files w' = files w
  /\ map Product._id (products w') = map Product._id (products w)
  /\ (forall id', id' <> id ->
                  lookup id' (products w') = lookup id' (products w))
  /\ exists p',
       lookup id (products w') = Some p'
       /\ Product.name p' = Product.name p
       /\ Product.price p' = Product.price p
       /\ Product.description p' = Product.description p
       /\ Product.image p' = Product.image p
       /\ Product.brand p' = Product.brand p
       /\ Product.category p' = Product.category p
       /\ Product.countInStock p' = Product.countInStock p
       /\ Product.colors p' = Product.colors p
       /\ Product.char p' = Product.char p
       /\ Product.year p' = Product.year p
       /\ Product.user p' = Product.user p.
Proof.
  intros C L Hfresh V w'.
  assert (F := find_user_None _ _ Hfresh).
  unfold w'.
  rewrite createProductReview_fresh with (w := w) (req := req) (id := id) (p := p);
    [|assumption..].
  simpl.
  destruct (lookup_Some _ _ _ L) as [_ Hp].
  split; [reflexivity|]. split; [apply map_id_replace|]. split.
  - intros id' Hne. apply lookup_replace_other. simpl. congruence.
  - exists (reviewed StringToNumber req p). split; [|simpl; repeat split].
    rewrite <- Hp.
    change (Product._id p) with (Product._id (reviewed StringToNumber req p)).
    apply lookup_replace with (q := p). simpl. rewrite Hp. exact L.
Qed.

End Creation.

(** ** Invariants of the derived fields *)

Lemma Forall_replace (P : Product.t -> Prop) (p : Product.t) (docs : list Product.t) :
  Forall P docs -> P p -> Forall P (replace p docs).
Proof.
  intros F Hp. apply Forall_forall. intros x Hx.
  apply in_replace in Hx. destruct Hx as [->|Hx]; [exact Hp|].
  rewrite Forall_forall in F. auto.
Qed.

Lemma Forall_remove_id (P : Product.t -> Prop) (id : ObjectId) (docs : list Product.t) :
  Forall P docs -> Forall P (remove_id id docs).
Proof.
  intros F. apply Forall_forall. intros x Hx. apply in_remove_id in Hx.
  rewrite Forall_forall in F. auto.
Qed.

(** A property of products that creation, update and review keep is kept
    by every request. *)
Lemma handler_preserves (pf : Platform) (P : Product.t -> Prop) :
  (forall oid req, P (created oid req)) ->
  (forall b p, P p -> P (updated b p)) ->
  (forall req p, P p -> P (reviewed (p_StringToNumber pf) req p)) ->
  forall op req w,
    Forall P (products w) ->
    Forall P (products (world (snd (run (handler pf op req) w)))).
Proof.
  intros Hc Hu Hr op req w F.
  destruct op as [| | |i| | | | | | |].
  - unfold_handler. split_cases; exact F.
  - unfold_handler. split_cases; exact F.
  - cast_cases pf req C; [|exact F].
    unfold_handler; simpl. destruct (lookup _ _); simpl; exact F.
  - unfold_handler; simpl. fold (created i req).
    destruct (p_validate pf _); simpl; [|exact F].
    destruct (lookup _ _); simpl; [exact F|].
    apply Forall_app. split; [exact F|]. constructor; [apply Hc | constructor].
  - cast_cases pf req C; [|exact F].
    unfold_handler; simpl. destruct (lookup _ _) as [p|] eqn:L; simpl; [|exact F].
    fold (updated (body req) p).
    destruct (p_validate pf _); simpl; [|exact F].
    apply Forall_replace; [exact F|]. apply Hu.
    rewrite Forall_forall in F. apply F. apply (lookup_Some _ _ _ L).
  - cast_cases pf req C; [|exact F].
    unfold_handler; simpl. destruct (lookup _ _) eqn:L; simpl; [|exact F].
    destruct (Js.startsWith _ _); simpl; [|apply Forall_remove_id; exact F].
    destruct (existsb _ _) eqn:E; simpl;
      [rewrite E; simpl|apply Forall_remove_id; exact F].
    destruct (p_unlink_refusal pf _); simpl; [exact F|apply Forall_remove_id; exact F].
  - destruct (castObjectId (p_driver_cast pf) (params_id req)) as [id|] eqn:C;
      [|cast_cases pf req C'; [congruence|exact F]].
    destruct (lookup id (products w)) as [p|] eqn:L.
    + destruct (List.find
        (fun r => String.eqb (toString (Review.user r)) (toString (User._id (user req))))
        (Product.reviews p)) as [r|] eqn:Fd.
      * simpl handler.
        rewrite createProductReview_duplicate with (id := id) (p := p) (r := r);
          [|assumption..].
        exact F.
      * simpl handler.
        destruct (p_validate pf (reviewed (p_StringToNumber pf) req p)) eqn:V.
        -- rewrite createProductReview_fresh with (id := id) (p := p);
             [|assumption..].
           simpl.
           apply Forall_replace; [exact F|]. apply Hr.
           rewrite Forall_forall in F. apply F. apply (lookup_Some _ _ _ L).
        -- rewrite createProductReview_invalid with (id := id) (p := p);
             [|assumption..].
           exact F.
    + cast_cases pf req C'; [|congruence].
      unfold_handler; simpl.
      assert (id0 = id) as -> by congruence. rewrite L. simpl. exact F.
  - unfold_handler. split_cases; exact F.
  - unfold_handler; simpl. exact F.
  - unfold_handler; simpl. exact F.
  - unfold_handler; simpl. exact F.
Qed.

(** X6: in every world the handlers reach from an empty collection, each
    product's [numReviews] is the number of its reviews and, when it has a
    review, its [rating] is the mean of its reviews' ratings. *)
Theorem derived_fields_invariant (pf : Platform) (w : World) :
  reachable pf w ->
  forall p, In p (products w) ->
    Product.numReviews p = Z.of_nat (List.length (Product.reviews p))
    /\ (Product.reviews p <> [] -> Product.rating p = mean_rating (Product.reviews p)).
Proof.
  intros R.
  apply Forall_forall.
  induction R as [fs|w op req R IH]; [constructor|].
  apply handler_preserves; [| | |exact IH].
  - intros oid rq. split; [reflexivity|]. intros H. exfalso. apply H. reflexivity.
  - intros b p H. exact H.
  - intros rq p _. split; [reflexivity|]. intros _. reflexivity.
Qed.

(** ** Deletion and update, composed *)

Lemma remove_id_split (id : ObjectId) (docs : list Product.t) (p : Product.t) :
  lookup id docs = Some p ->
  exists l1 l2, docs = l1 ++ p :: l2 /\ remove_id id docs = l1 ++ l2.
Proof.
  induction docs as [|d docs IH]; simpl; [discriminate|].
  destruct (String.eqb _ _); intros L.
  - injection L as ->. exists [], docs. auto.
  - destruct (IH L) as [l1 [l2 [E1 E2]]].
    exists (d :: l1), l2. simpl. rewrite <- E1, E2. auto.
Qed.

Lemma in_remove_path (path f : string) (fs : list string) :
  In f (remove_path path fs) <-> In f fs /\ f <> path.
Proof.
  induction fs as [|g fs IH]; simpl; [tauto|].
  destruct (String.eqb_spec g path) as [->|Hne]; simpl; rewrite IH.
  - split; [tauto|]. intros [[<-|H] Hf]; [contradiction | auto].
  - split; [|tauto]. intros [<-|[H Hf]]; auto.
Qed.

Lemma replace_replace (p : Product.t) (docs : list Product.t) :
  replace p (replace p docs) = replace p docs.
Proof.
  induction docs as [|d docs IH]; simpl; [reflexivity|].
  destruct (String.eqb _ _) eqn:E; simpl.
  - rewrite id_eqb_refl. reflexivity.
  - rewrite E, IH. reflexivity.
Qed.

Section Composition.

Variable cwd : string.
Variable path_join : string -> string -> string.
Variable driver_cast : string -> option ObjectId.
Variable unlink_refusal : string -> option string.

Lemma deleteProduct_found (w : World) (req : Request) (id : ObjectId) (p : Product.t) :
  castObjectId driver_cast (params_id req) = Some id ->
  lookup id (products w) = Some p ->
  unlink_refused cwd path_join unlink_refusal w p = None ->
  exists fs lg,
    run (deleteProduct cwd path_join driver_cast unlink_refusal req) w
    = (Normal tt,
       {| world := {| products := remove_id id (products w); files := fs |};
          res := {| statusCode := 200; sent := Some (JMessage "Product removed") |};
          log := lg |})
    /\ (fs = files w \/ fs = remove_path (path_join cwd (Product.image p)) (files w)).
Proof.
  intros C L. destruct (lookup_Some _ _ _ L) as [_ Hid].
  unfold unlink_refused, run, deleteProduct.
  rewrite (bind_findById_cast _ _ id _ _ C).
  unfold_handler; simpl. rewrite L. simpl. rewrite Hid.
  destruct (Js.startsWith _ _); simpl; [|eauto].
  destruct (existsb _ _) eqn:E; simpl; [rewrite E; simpl|eauto].
  intros ->. simpl. eauto.
Qed.

Lemma deleteProduct_refused (w : World) (req : Request) (id : ObjectId) (p : Product.t)
    (e : string) :
  castObjectId driver_cast (params_id req) = Some id ->
  lookup id (products w) = Some p ->
  unlink_refused cwd path_join unlink_refusal w p = Some e ->
  exists lg,
    run (deleteProduct cwd path_join driver_cast unlink_refusal req) w
    = (Thrown e,
       {| world := w; res := {| statusCode := 200; sent := None |}; log := lg |}).
Proof.
  intros C L.
  unfold unlink_refused, run, deleteProduct.
  rewrite (bind_findById_cast _ _ id _ _ C).
  unfold_handler; simpl. rewrite L. simpl.
  destruct (Js.startsWith _ _); simpl; [|discriminate].
  destruct (existsb _ _) eqn:E; simpl; [rewrite E; simpl|discriminate].
  intros ->. simpl. destruct w; eauto.
Qed.

(** X7: deleting a stored product, unless the disk refuses to unlink the
    product's local image, answers 200 with [Product removed]; the
    collection loses that one document and keeps the others in their order;
    no file other than the product's own image path is removed; and,
    identifiers being distinct, retrieving the identifier afterwards answers
    404. When the disk refuses the unlink, the deletion throws the disk's
    error, sends nothing, and the record and the disk stay as they were. *)
Theorem delete_removes_one_product (w : World) (req req' : Request) (id : ObjectId)
    (p : Product.t) :
  castObjectId driver_cast (params_id req) = Some id ->
  lookup id (products w) = Some p ->
  params_id req' = params_id req ->
  let r := run (deleteProduct cwd path_join driver_cast unlink_refusal req) w in
  let w' := world (snd r) in
  (unlink_refused cwd path_join unlink_refusal w p = None ->
   fst r = Normal tt
   /\ res (snd r) = {| statusCode := 200; sent := Some (JMessage "Product removed") |}
   /\ (exists l1 l2, products w = l1 ++ p :: l2 /\ products w' = l1 ++ l2)
   /\ (forall f, f <> path_join cwd (Product.image p) ->
                 (In f (files w') <-> In f (files w)))
   /\ (unique_ids (products w) ->
       run (getProductById driver_cast req') w' = not_found id w'))
  /\ (forall e,
        unlink_refused cwd path_join unlink_refusal w p = Some e ->
        fst r = Thrown e
        /\ sent (res (snd r)) = None
        /\ w' = w
        /\ lookup id (products w') = Some p).
Proof.
  intros C L Hid r w'. split.
  - intros Hr.
    destruct (deleteProduct_found w req id p C L Hr) as [fs [lg [R Hfs]]].
    unfold w', r. rewrite R. simpl.
    split; [reflexivity|]. split; [reflexivity|].
    split; [apply remove_id_split; exact L|]. split.
    + intros f Hf. destruct Hfs as [->| ->]; [tauto|].
      rewrite in_remove_path. tauto.
    + intros U. unfold run, getProductById. rewrite Hid.
      rewrite (bind_findById_cast _ _ id _ _ C).
      unfold_handler; simpl.
      rewrite (lookup_remove_id _ _ U). reflexivity.
  - intros e Hr.
    destruct (deleteProduct_refused w req id p e C L Hr) as [lg R].
    unfold w', r. rewrite R. simpl.
    split; [reflexivity|]. split; [reflexivity|]. split; [reflexivity | exact L].
Qed.

End Composition.

(** X8: an update is idempotent: repeating a successful update with the same
    body gives the same answer and leaves the world the first update left. *)
Theorem update_twice (validate : Product.t -> bool)
    (driver_cast : string -> option ObjectId)
    (validation_message : Product.t -> string)
    (w : World) (req : Request) (id : ObjectId) (p : Product.t) :
  castObjectId driver_cast (params_id req) = Some id ->
  lookup id (products w) = Some p ->
  validate (updated (body req) p) = true ->
  let r := run (updateProduct validate driver_cast validation_message req) w in
  fst r = Normal tt
  /\ run (updateProduct validate driver_cast validation_message req) (world (snd r))
     = r.
Proof.
  intros C L V r.
  destruct (lookup_Some _ _ _ L) as [_ Hid].
  assert (R : r = (Normal tt,
                   {| world := {| products := replace (updated (body req) p) (products w);
                                  files := files w |};
                      res := {| statusCode := 200;
                                sent := Some (JProduct (updated (body req) p)) |};
                      log := [DbFindById id; DbSave (Product._id p)] |})).
  { unfold r, run, updateProduct. rewrite (bind_findById_cast _ _ id _ _ C).
    unfold_handler; simpl. rewrite L. simpl.
    match goal with
    | |- context [validate ?x] => change x with (updated (body req) p)
    end.
    rewrite V. reflexivity. }
  rewrite R. simpl. split; [reflexivity|].
  assert (L' : lookup id (replace (updated (body req) p) (products w))
               = Some (updated (body req) p)).
  { rewrite <- Hid.
    change (Product._id p) with (Product._id (updated (body req) p)).
    apply lookup_replace with (q := p). simpl. rewrite Hid. exact L. }
  unfold run, updateProduct. rewrite (bind_findById_cast _ _ id _ _ C).
  unfold_handler; simpl. rewrite L'. simpl.
  match goal with
  | |- context [validate ?x] => change x with (updated (body req) p)
  end.
  rewrite V. simpl. rewrite replace_replace. reflexivity.
Qed.

(** ** Handlers that only read *)

Section ReadOnly.

Variable env : Env.
Variable regex_engine : string -> option (string -> bool).
Variable driver_cast : string -> option ObjectId.

(** X9: the seven listing and lookup handlers never change the collection
    or the disk and perform nothing but reads of the store, whatever the
    request and whether they answer or throw. *)
Theorem reads_change_nothing (w : World) (req : Request) :
  Forall
    (fun h : M unit =>
       world (snd (run h w)) = w
       /\ forallb reads_store (log (snd (run h w))) = true)
    [getProducts env regex_engine req;
     getProductsByCategory env regex_engine req;
     getProductById driver_cast req;
     getTopProducts regex_engine req;
     getAllBrands req;
     getAllColors req;
     getAllYears req].
Proof.
  repeat constructor.
  all: try (unfold_handler; split_cases; reflexivity).
  all: unfold_handler;
    destruct (castObjectId driver_cast (params_id req)) as [id|]; simpl;
    [destruct (lookup _ _)|]; split; reflexivity.
Qed.

End ReadOnly.

(** ** Pages of the catalog listing *)

Section Pages.

Variable env : Env.
Variable regex_engine : string -> option (string -> bool).

(** X10: a page number past the last page of the catalog listing is not an
    error: the answer has status 200, an empty list of products and the same
    page count. *)
Theorem page_past_the_end_is_empty (w : World) (req : Request)
  (m : Product.t -> bool) (p pages : Z) :
  matcher regex_engine (keyword_filter req) = Some m ->
  0 < pageSize env ->
  query_pageNumber req = Some p ->
  Js.ceil_div (Z.of_nat (List.length (filter m (products w)))) (pageSize env) = Some pages ->
  pages < p ->
  run (getProducts env regex_engine req) w
  = (Normal tt,
     {| world := w;
        res := {| statusCode := 200; sent := Some (JPage [] p (Some pages)) |};
        log := [DbCount; DbFind] |}).
Proof.
  intros Hm Hsize Hq Hceil Hp.
  destruct (ceil_div_pos (Z.of_nat (List.length (filter m (products w)))) (pageSize env) Hsize)
    as [Hc [Hlow Hcover]].
  rewrite Hc in Hceil. injection Hceil as Hpages. rewrite Hpages in *.
  assert (H0 : 0 <= pages).
  { destruct (Z.lt_ge_cases pages 0) as [Hneg|]; [|assumption]. nia. }
  assert (Hpage : pageNumber req = p).
  { unfold pageNumber. rewrite Hq. destruct p; try reflexivity. lia. }
  rewrite (getProducts_run env regex_engine w req m Hm) by (rewrite Hpage; nia).
  cbv zeta. rewrite Hpage, Hc. unfold apply_limit.
  rewrite skipn_all2 by nia.
  destruct (pageSize env =? 0); [|rewrite firstn_nil]; reflexivity.
Qed.

(** X11: the defaults of the query: page number 0 is read as page 1, as an
    absent page number is, and an empty keyword is no filter, as an absent
    keyword is; the answers are the same, for both listings. *)
Theorem query_defaults (w : World) (req : Request) :
  run (getProducts env regex_engine (with_pageNumber 0 req)) w
  = run (getProducts env regex_engine (with_pageNumber 1 req)) w
  /\ run (getProductsByCategory env regex_engine (with_pageNumber 0 req)) w
     = run (getProductsByCategory env regex_engine (with_pageNumber 1 req)) w
  /\ (query_pageNumber req = None ->
      run (getProducts env regex_engine req) w
      = run (getProducts env regex_engine (with_pageNumber 1 req)) w
      /\ run (getProductsByCategory env regex_engine req) w
         = run (getProductsByCategory env regex_engine (with_pageNumber 1 req)) w)
  /\ run (getProducts env regex_engine (with_keyword (Some "") req)) w
     = run (getProducts env regex_engine (with_keyword None req)) w.
Proof.
  split; [reflexivity|]. split; [reflexivity|]. split; [|reflexivity].
  intros Hq. unfold getProducts, getProductsByCategory, pageNumber. simpl.
  rewrite Hq. split; reflexivity.
Qed.

(** X12: of the pages 1 to [pages] of the catalog listing, every page before
    the last holds exactly [pageSize] products and the last holds the rest,
    at least one. *)
Theorem pages_are_full (w : World) (req : Request) (m : Product.t -> bool) (p pages : Z) :
  matcher regex_engine (keyword_filter req) = Some m ->
  0 < pageSize env ->
  Js.ceil_div (Z.of_nat (List.length (filter m (products w)))) (pageSize env) = Some pages ->
  1 <= p <= pages ->
  let n := Z.of_nat (List.length (listing env regex_engine w req p)) in
  (p < pages -> n = pageSize env)
  /\ (p = pages ->
      n = Z.of_nat (List.length (filter m (products w))) - pageSize env * (pages - 1)
      /\ 1 <= n <= pageSize env).
Proof.
  intros Hm Hsize Hceil Hp n.
  destruct (ceil_div_pos (Z.of_nat (List.length (filter m (products w)))) (pageSize env) Hsize)
    as [Hc [Hlow Hcover]].
  rewrite Hc in Hceil. injection Hceil as Hpages. rewrite Hpages in *.
  assert (Hn : n = Z.min (pageSize env)
                     (Z.of_nat (List.length (filter m (products w)))
                      - pageSize env * (p - 1))).
  { unfold n. replace p with (Z.of_nat (S (Z.to_nat (p - 1)))) at 1 by lia.
    rewrite (listing_page env regex_engine w req m _ Hm Hsize).
    rewrite length_firstn, length_skipn. nia. }
  split.
  - intros Hlt. rewrite Hn. nia.
  - intros ->. rewrite Hn. split; nia.
Qed.




End Pages.

(** ** Pages of a category *)

Section CategoryPages.

Variable env : Env.
Variable regex_engine : string -> option (string -> bool).

Lemma category_listing_page (w : World) (req : Request) (j : nat) :
  0 < pageSize env ->
  category_listing env regex_engine w req (Z.of_nat (S j))
  = firstn (Z.to_nat (pageSize env))
      (skipn (Z.to_nat (pageSize env) * j) (filter (in_category req) (products w))).
Proof.
  intros Hsize. unfold category_listing.
  assert (Hpage : pageNumber (with_pageNumber (Z.of_nat (S j)) req) = Z.of_nat (S j)).
  { unfold pageNumber, with_pageNumber. simpl query_pageNumber.
    destruct (Z.of_nat (S j)) eqn:E; try reflexivity; lia. }
  rewrite getProductsByCategory_run by (rewrite Hpage; nia).
  cbv zeta. rewrite Hpage. unfold sent_products, apply_limit. cbn [sent res].
  change (in_category (with_pageNumber (Z.of_nat (S j)) req)) with (in_category req).
  destruct (Z.eqb_spec (pageSize env) 0); [lia|].
  replace (Z.abs_nat (pageSize env)) with (Z.to_nat (pageSize env)) by lia.
  replace (Z.to_nat (pageSize env * (Z.of_nat (S j) - 1)))
    with (Z.to_nat (pageSize env) * j)%nat by nia.
  reflexivity.
Qed.

(** X14: the listing of a category is paginated as the catalog is: for a
    positive page size the pages 1 to [ceil(count / pageSize)], in that
    order, put end to end are the products of the category, each once, in
    the order of the collection. *)
Theorem category_pages_cover (w : World) (req : Request) (pages : Z) :
  0 < pageSize env ->
  Js.ceil_div (Z.of_nat (List.length (filter (in_category req) (products w))))
    (pageSize env) = Some pages ->
  List.concat (map (fun i => category_listing env regex_engine w req (Z.of_nat i))
                 (seq 1 (Z.to_nat pages)))
  = filter (in_category req) (products w).
Proof.
  intros Hsize Hceil.
  destruct (ceil_div_pos (Z.of_nat (List.length (filter (in_category req) (products w))))
              (pageSize env) Hsize) as [Hc [_ Hcover]].
  rewrite Hc in Hceil. injection Hceil as Hpages. rewrite Hpages in Hcover.
  rewrite <- seq_shift, map_map.
  rewrite (map_ext _ (fun j => firstn (Z.to_nat (pageSize env))
                                (skipn (Z.to_nat (pageSize env) * j)
                                   (filter (in_category req) (products w)))))
    by (intros j; apply category_listing_page; assumption).
  rewrite chunks_concat. apply firstn_all2. nia.
Qed.

(** X15: the page count and the price range a category listing sends do not
    depend on the page asked for, and the least price sent is not above the
    greatest. *)
Theorem price_range_is_page_independent (w : World) (req : Request) (i j : Z) :
  0 <= pageSize env * (pageNumber (with_pageNumber i req) - 1) ->
  0 <= pageSize env * (pageNumber (with_pageNumber j req) - 1) ->
  sent_range (run (getProductsByCategory env regex_engine (with_pageNumber i req)) w)
  = sent_range (run (getProductsByCategory env regex_engine (with_pageNumber j req)) w)
  /\ forall pages lo hi,
       sent_range (run (getProductsByCategory env regex_engine (with_pageNumber i req)) w)
       = Some (pages, Some lo, Some hi) ->
       Bson.leb lo hi = true.
Proof.
  intros Hi Hj.
  rewrite (getProductsByCategory_run env regex_engine w _ Hi).
  rewrite (getProductsByCategory_run env regex_engine w _ Hj).
  cbv zeta. unfold sent_range. cbn [snd res sent].
  change (in_category (with_pageNumber i req)) with (in_category req).
  change (in_category (with_pageNumber j req)) with (in_category req).
  split; [reflexivity|].
  intros pages lo hi.
  destruct (filter (in_category req) (products w)) as [|p0 rest]; simpl; [discriminate|].
  intros H. injection H as _ <- <-.
  destruct (fold_min_spec (map Product.price rest) (Product.price p0)) as [_ Hmin].
  destruct (fold_max_spec (map Product.price rest) (Product.price p0)) as [_ Hmax].
  apply bson_leb_trans with (b := Product.price p0);
    [apply Hmin | apply Hmax]; left; reflexivity.
Qed.

End CategoryPages.

(** ** Top products and brands *)

(** X16: the top-products answer holds three products when the collection
    has at least three, and otherwise the whole collection (none when it is
    empty), sorted. *)
Theorem top_products_count (regex_engine : string -> option (string -> bool))
  (w : World) (req : Request) :
  exists top : list Product.t,
    sent (res (snd (run (getTopProducts regex_engine req) w))) = Some (JProducts top)
    /\ List.length top = Nat.min 3 (List.length (products w))
    /\ ((List.length (products w) <= 3)%nat -> Permutation top (products w)).
Proof.
  exists (firstn 3 (Js.sort_by rating_desc (products w))).
  pose proof (sort_by_perm rating_desc (products w)) as P.
  split; [|split].
  - unfold_handler; simpl. rewrite filter_true. reflexivity.
  - rewrite length_firstn, (Permutation_length P). reflexivity.
  - intros H. rewrite firstn_all2; [exact P|].
    rewrite (Permutation_length P). exact H.
Qed.

Lemma sorted_nodup_unique (l1 l2 : list string) :
  StronglySorted (fun a b => String.leb a b = true) l1 ->
  StronglySorted (fun a b => String.leb a b = true) l2 ->
  NoDup l1 -> NoDup l2 ->
  (forall x, In x l1 <-> In x l2) ->
  l1 = l2.
Proof.
  revert l2. induction l1 as [|a l1 IH]; intros [|b l2] S1 S2 N1 N2 E.
  - reflexivity.
  - exfalso. apply (proj2 (E b)). left. reflexivity.
  - exfalso. apply (proj1 (E a)). left. reflexivity.
  - apply StronglySorted_inv in S1. destruct S1 as [S1 F1].
    apply StronglySorted_inv in S2. destruct S2 as [S2 F2].
    rewrite Forall_forall in F1, F2.
    inversion N1 as [|? ? Na N1']; subst. inversion N2 as [|? ? Nb N2']; subst.
    assert (Hab : a = b).
    { destruct (proj1 (E a) (or_introl eq_refl)) as [Hb|Hin]; [auto|].
      destruct (proj2 (E b) (or_introl eq_refl)) as [Ha|Hin']; [auto|].
      apply String.leb_antisym; [apply F1; exact Hin' | apply F2; exact Hin]. }
    subst b. f_equal. apply IH; try assumption.
    intros x. split; intros Hx.
    + destruct (proj1 (E x) (or_intror Hx)) as [<-|H]; [contradiction | exact H].
    + destruct (proj2 (E x) (or_intror Hx)) as [<-|H]; [contradiction | exact H].
Qed.

(** X17: the brands answer does not depend on the order of the collection:
    two collections holding the same products in any order give the same
    list of brands. *)
Theorem brands_ignore_store_order (w w' : World) (req : Request) :
  Permutation (products w) (products w') ->
  sent (res (snd (run (getAllBrands req) w)))
  = sent (res (snd (run (getAllBrands req) w'))).
Proof.
  intros P. unfold_handler; simpl. rewrite !map_id. do 2 f_equal.
  unfold Js.sort.
  apply sorted_nodup_unique.
  - apply sort_by_sorted; [apply String.leb_total | apply string_leb_trans].
  - apply sort_by_sorted; [apply String.leb_total | apply string_leb_trans].
  - apply (Permutation_NoDup (Permutation_sym (sort_by_perm _ _))).
    apply group_NoDup. apply String.eqb_eq.
  - apply (Permutation_NoDup (Permutation_sym (sort_by_perm _ _))).
    apply group_NoDup. apply String.eqb_eq.
  - intros x.
    assert (H : forall docs, In x (Js.sort_by String.leb (group String.eqb (map Product.brand docs)))
                             <-> In x (map Product.brand docs)).
    { intros docs. split; intros Hx.
      - apply (Permutation_in _ (sort_by_perm _ _)) in Hx.
        apply -> (group_In _ String.eqb_eq) in Hx. exact Hx.
      - apply (Permutation_in _ (Permutation_sym (sort_by_perm _ _))).
        apply <- (group_In _ String.eqb_eq). exact Hx. }
    rewrite !H. split; apply Permutation_in; [|apply Permutation_sym];
      apply Permutation_map; exact P.
Qed.

(** ** Requests the store refuses *)

(** X18: a catalog listing whose keyword the store rejects as a pattern, or
    whose page number is negative (the skip is then negative), throws the
    store's error: no body is sent, no status is set, the world is as it
    was. *)
Theorem refused_query_sends_nothing (env : Env)
  (regex_engine : string -> option (string -> bool)) (w : World) (req : Request) :
  (matcher regex_engine (keyword_filter req) = None ->
   run (getProducts env regex_engine req) w
   = (Thrown "Regular expression is invalid",
      {| world := w; res := {| statusCode := 200; sent := None |}; log := [DbCount] |}))
  /\ (forall m p,
        matcher regex_engine (keyword_filter req) = Some m ->
        0 < pageSize env ->
        query_pageNumber req = Some p ->
        p < 0 ->
        run (getProducts env regex_engine req) w
        = (Thrown "Skip value must be non-negative",
           {| world := w;
              res := {| statusCode := 200; sent := None |};
              log := [DbCount; DbFind] |})).
Proof.
  split.
  - intros Hm. unfold_handler; simpl. fold (keyword_filter req). rewrite Hm.
    destruct w; reflexivity.
  - intros m p Hm Hsize Hq Hp.
    assert (Hpage : pageNumber req = p).
    { unfold pageNumber. rewrite Hq. destruct p; try reflexivity. lia. }
    unfold_handler; simpl. fold (keyword_filter req). rewrite Hm. simpl.
    rewrite Hpage.
    destruct (Z.ltb_spec (pageSize env * (p - 1)) 0); [|nia].
    destruct w; reflexivity.
Qed.

(** * Worked instances of the further properties *)


Lemma rejected_save_writes_nothing_witness :
  run (createProduct no_product invalid_product (oid "10")
         (sample_request (oid "02") bob (sample_body (Js.Num 2) "meh"))) shop
  = (Thrown "Product validation failed: Gadget",
     {| world := shop; res := {| statusCode := 200; sent := None |}; log := [] |})
  /\ run (updateProduct no_product no_driver_cast invalid_product
            (sample_request (oid "02") bob (sample_body (Js.Num 2) "meh"))) shop
     = (Thrown "Product validation failed: Gadget",
        {| world := shop;
           res := {| statusCode := 200; sent := None |};
           log := [DbFindById (oid "02")] |})
  /\ run (createProductReview no_number no_product no_driver_cast invalid_product
            (sample_request (oid "02") bob (sample_body (Js.Num 2) "meh"))) shop
     = (Thrown "Product validation failed: Gadget",
        {| world := shop;
           res := {| statusCode := 200; sent := None |};
           log := [DbFindById (oid "02")] |}).
Proof.
  destruct (rejected_save_writes_nothing no_number no_product no_driver_cast
              invalid_product shop (oid "10")
              (sample_request (oid "02") bob (sample_body (Js.Num 2) "meh")))
    as [H1 [H2 H3]].
  split; [apply H1; reflexivity|]. split.
  - apply (H2 (oid "02") gadget); reflexivity.
  - apply (H3 (oid "02") gadget); [reflexivity | reflexivity | | reflexivity].
    intros r [<-|[]] H. vm_compute in H. discriminate H.
Defined.

Lemma review_of_missing_product_witness :
  run (createProductReview no_number any_product no_driver_cast invalid_product
         (sample_request (oid "99") bob (sample_body (Js.Num 2) "meh"))) shop
  = not_found (oid "99") shop
  /\ run (createProductReview no_number any_product no_driver_cast invalid_product
            unparsable_request) shop
     = cast_failed "abc" shop.
Proof.
  split.
  - apply (proj1 (review_of_missing_product no_number any_product no_driver_cast
                    invalid_product shop
                    (sample_request (oid "99") bob (sample_body (Js.Num 2) "meh")))
             (oid "99")).
    + reflexivity.
    + intros p [<-|[<-|[<-|[<-|[]]]]]; discriminate.
  - apply (proj2 (review_of_missing_product no_number any_product no_driver_cast
                    invalid_product shop unparsable_request)).
    reflexivity.
Defined.

Lemma second_review_refused_witness :
  run (createProductReview no_number any_product no_driver_cast invalid_product
         (sample_request (oid "02") bob (sample_body (Js.Num 5) "again")))
    (world (snd (run (createProductReview no_number any_product no_driver_cast
                        invalid_product
                        (sample_request (oid "02") bob (sample_body (Js.Num 2) "meh")))
                   shop)))
  = (Thrown "Product already reviewed",
     {| world :=
          world (snd (run (createProductReview no_number any_product no_driver_cast
                             invalid_product
                             (sample_request (oid "02") bob
                                (sample_body (Js.Num 2) "meh")))
                        shop));
        res := {| statusCode := 400; sent := None |};
        log := [DbFindById (oid "02")] |}).
Proof.
  apply (second_review_refused no_number any_product no_driver_cast invalid_product
           shop
           (sample_request (oid "02") bob (sample_body (Js.Num 2) "meh"))
           (sample_request (oid "02") bob (sample_body (Js.Num 5) "again"))
           (oid "02") gadget).
  - reflexivity.
  - reflexivity.
  - intros r [<-|[]] H. vm_compute in H. discriminate H.
  - reflexivity.
  - reflexivity.
  - reflexivity.
Defined.

Lemma review_changes_one_product_witness :
  files (world (snd (run (createProductReview no_number any_product no_driver_cast
                            invalid_product
                            (sample_request (oid "02") bob
                               (sample_body (Js.Num 2) "meh")))
                       shop)))
  = files shop
  /\ lookup (oid "03")
       (products
          (world (snd (run (createProductReview no_number any_product no_driver_cast
                              invalid_product
                              (sample_request (oid "02") bob
                                 (sample_body (Js.Num 2) "meh")))
                         shop))))
     = Some gizmo.
Proof.
  destruct (review_changes_one_product no_number any_product no_driver_cast
              invalid_product shop
              (sample_request (oid "02") bob (sample_body (Js.Num 2) "meh"))
              (oid "02") gadget)
    as [Hf [_ [Ho _]]].
  - reflexivity.
  - reflexivity.
  - intros r [<-|[]] H. vm_compute in H. discriminate H.
  - reflexivity.
  - split; [exact Hf|]. rewrite (Ho (oid "03")); [reflexivity | discriminate].
Defined.

Lemma derived_fields_invariant_witness :
  exists p, In p (products reviewed_once)
            /\ Product.numReviews p = Z.of_nat (List.length (Product.reviews p))
            /\ Product.rating p = mean_rating (Product.reviews p).
Proof.
  assert (R : reachable sample_platform reviewed_once)
    by (unfold reviewed_once; apply reach_step, reach_step, reach_empty).
  destruct (products reviewed_once) as [|p rest] eqn:E; [discriminate E|].
  assert (Hin : In p (products reviewed_once)) by (rewrite E; left; reflexivity).
  exists p. split; [left; reflexivity|].
  destruct (derived_fields_invariant sample_platform reviewed_once R p Hin) as [Hn Hr].
  split; [exact Hn|]. apply Hr.
  vm_compute in E. injection E as <- _. discriminate.
Defined.

Lemma delete_removes_one_product_witness :
  (fst (run (deleteProduct "/srv/app" concat_paths no_driver_cast no_refusal
               (sample_request (oid "01") alice (sample_body Js.Undefined ""))) shop)
   = Normal tt
   /\ run (getProductById no_driver_cast
             (sample_request (oid "01") bob (sample_body Js.Undefined "")))
        (world (snd (run (deleteProduct "/srv/app" concat_paths no_driver_cast
                            no_refusal
                            (sample_request (oid "01") alice
                               (sample_body Js.Undefined "")))
                       shop)))
      = not_found (oid "01")
          (world (snd (run (deleteProduct "/srv/app" concat_paths no_driver_cast
                              no_refusal
                              (sample_request (oid "01") alice
                                 (sample_body Js.Undefined "")))
                         shop))))
  /\ (fst (run (deleteProduct "/srv/app" concat_paths no_driver_cast directory_refusal
                  (sample_request (oid "06") alice (sample_body Js.Undefined "")))
             depot)
      = Thrown "EISDIR: illegal operation on a directory, unlink '/srv/app/uploads'"
      /\ world (snd (run (deleteProduct "/srv/app" concat_paths no_driver_cast
                            directory_refusal
                            (sample_request (oid "06") alice
                               (sample_body Js.Undefined "")))
                       depot))
         = depot).
Proof.
  split.
  - destruct (delete_removes_one_product "/srv/app" concat_paths no_driver_cast
                no_refusal shop
                (sample_request (oid "01") alice (sample_body Js.Undefined ""))
                (sample_request (oid "01") bob (sample_body Js.Undefined ""))
                (oid "01") widget)
      as [[H1 [_ [_ [_ H5]]]] _].
    + reflexivity.
    + reflexivity.
    + reflexivity.
    + reflexivity.
    + split; [exact H1|]. apply H5. unfold unique_ids. distinct_ids.
  - destruct (delete_removes_one_product "/srv/app" concat_paths no_driver_cast
                directory_refusal depot
                (sample_request (oid "06") alice (sample_body Js.Undefined ""))
                (sample_request (oid "06") bob (sample_body Js.Undefined ""))
                (oid "06") folder)
      as [_ H].
    + reflexivity.
    + reflexivity.
    + reflexivity.
    + destruct (H "EISDIR: illegal operation on a directory, unlink '/srv/app/uploads'")
        as [H1 [_ [H3 _]]]; [reflexivity|].
      split; [exact H1 | exact H3].
Defined.

Lemma update_twice_witness :
  fst (run (updateProduct any_product no_driver_cast invalid_product
              (sample_request (oid "03") alice (sample_body Js.Undefined ""))) shop)
  = Normal tt
  /\ run (updateProduct any_product no_driver_cast invalid_product
            (sample_request (oid "03") alice (sample_body Js.Undefined "")))
       (world (snd (run (updateProduct any_product no_driver_cast invalid_product
                           (sample_request (oid "03") alice
                              (sample_body Js.Undefined "")))
                      shop)))
     = run (updateProduct any_product no_driver_cast invalid_product
              (sample_request (oid "03") alice (sample_body Js.Undefined ""))) shop.
Proof.
  apply (update_twice any_product no_driver_cast invalid_product shop
           (sample_request (oid "03") alice (sample_body Js.Undefined ""))
           (oid "03") gizmo);
    reflexivity.
Defined.

Lemma page_past_the_end_is_empty_witness :
  run (getProducts small_pages no_engine (search_request None (Some 3))) shop
  = (Normal tt,
     {| world := shop;
        res := {| statusCode := 200; sent := Some (JPage [] 3 (Some 2)) |};
        log := [DbCount; DbFind] |}).
Proof.
  apply (page_past_the_end_is_empty small_pages no_engine shop
           (search_request None (Some 3)) (fun _ => true) 3 2);
    try reflexivity.
Defined.

Lemma pages_are_full_witness :
  Z.of_nat (List.length (listing small_pages no_engine shop (search_request None None) 1))
  = pageSize small_pages.
Proof.
  destruct (pages_are_full small_pages no_engine shop (search_request None None)
              (fun _ => true) 1 2) as [H _].
  - reflexivity.
  - reflexivity.
  - reflexivity.
  - lia.
  - apply H. lia.
Defined.


Lemma category_pages_cover_witness :
  List.concat (map (fun i => category_listing small_pages no_engine shop
                               (search_request None None) (Z.of_nat i))
                 (seq 1 (Z.to_nat 2)))
  = [widget; gadget; doohickey].
Proof.
  apply (category_pages_cover small_pages no_engine shop (search_request None None) 2);
    reflexivity.
Defined.

Lemma price_range_is_page_independent_witness :
  sent_range (run (getProductsByCategory no_env no_engine
                     (with_pageNumber 1 (search_request None None))) shop)
  = sent_range (run (getProductsByCategory no_env no_engine
                       (with_pageNumber 2 (search_request None None))) shop)
  /\ Bson.leb 9.5 20 = true.
Proof.
  destruct (price_range_is_page_independent no_env no_engine shop
              (search_request None None) 1 2) as [H1 H2].
  - vm_compute. discriminate.
  - vm_compute. discriminate.
  - split; [exact H1|]. apply (H2 (Some 1)). reflexivity.
Defined.

Lemma brands_ignore_store_order_witness :
  sent (res (snd (run (getAllBrands (search_request None None)) shop)))
  = sent (res (snd (run (getAllBrands (search_request None None)) shop_reversed))).
Proof.
  apply (brands_ignore_store_order shop shop_reversed (search_request None None)).
  apply Permutation_rev.
Defined.

Lemma refused_query_sends_nothing_witness :
  run (getProducts no_env no_engine (search_request (Some "(") None)) shop
  = (Thrown "Regular expression is invalid",
     {| world := shop; res := {| statusCode := 200; sent := None |}; log := [DbCount] |})
  /\ run (getProducts no_env no_engine (search_request None (Some (-1)))) shop
     = (Thrown "Skip value must be non-negative",
        {| world := shop;
           res := {| statusCode := 200; sent := None |};
           log := [DbCount; DbFind] |}).
Proof.
  split.
  - apply (proj1 (refused_query_sends_nothing no_env no_engine shop
                    (search_request (Some "(") None))).
    reflexivity.
  - apply (proj2 (refused_query_sends_nothing no_env no_engine shop
                    (search_request None (Some (-1)))) (fun _ => true) (-1));
      try reflexivity.
Defined.
